(** * The topic queue and command dispatcher of botnet.py

    A shallow embedding of the part of [botnet.py] that manages the
    meeting topics: the four store methods [get_topics], [write_topics],
    [add_topic], [next_topic], the sender [send_message] and the event
    callback [cb_print_messages].

    Conventions of the embedding.
    - A Python [str] is a Rocq [string]; the character numbered [n] stands
      for the code point [n] (0..255).
    - The file [topics.json] is [option string]: [None] when the file does
      not exist, [Some text] when it exists and holds [text].
    - [json.load] and [json.dump] belong to Python's library, and
      [room_send] to the Matrix client library.  They are parameters of
      the development ([Collaborators]); a reference JSON codec is given
      below to instantiate them.
    - Every exception of the model is an instance of [Exception].  The
      signals that derive from [BaseException] alone (a cancelled task, a
      keyboard interrupt) end the program and are not modelled.
    - A method of the client is a function from the state of the world to
      an outcome and a new state of the world; a Python exception is the
      outcome [Raise e], and the effects performed before it are kept. *)

From Stdlib Require Import String Ascii List Bool Arith Lia DecimalString.
Import ListNotations.
Open Scope string_scope.

(** ** Python strings *)

Module PyStr.

(** [s.startswith(p)]. *)
Fixpoint startswith (s p : string) {struct p} : bool :=
  match p with
  | EmptyString => true
  | String a p' =>
      match s with
      | EmptyString => false
      | String b s' => (a =? b)%char && startswith s' p'
      end
  end.

(** [s[n:]]. *)
Fixpoint slice_from (n : nat) (s : string) : string :=
  match n, s with
  | O, _ => s
  | S _, EmptyString => EmptyString
  | S k, String _ r => slice_from k r
  end.

(** [c.isspace()] for a code point below 256: the ASCII separators
    9..13 and 28..32, NEL (133) and the no-break space (160). *)
Definition isspace (c : ascii) : bool :=
  let n := nat_of_ascii c in
  (((9 <=? n) && (n <=? 13)) || ((28 <=? n) && (n <=? 32))
   || (n =? 133) || (n =? 160))%nat.

Fixpoint lstrip (s : string) : string :=
  match s with
  | EmptyString => EmptyString
  | String c r => if isspace c then lstrip r else s
  end.

Fixpoint rstrip (s : string) : string :=
  match s with
  | EmptyString => EmptyString
  | String c r =>
      match rstrip r with
      | EmptyString => if isspace c then EmptyString else String c EmptyString
      | r' => String c r'
      end
  end.

(** [s.strip()]. *)
Definition strip (s : string) : string := rstrip (lstrip s).

(** [str(n)] for a non-negative integer. *)
Definition of_nat (n : nat) : string := NilEmpty.string_of_uint (Nat.to_uint n).

(** The one-character strings a [str] yields when it is iterated. *)
Fixpoint chars (s : string) : list string :=
  match s with
  | EmptyString => []
  | String c r => String c EmptyString :: chars r
  end.

End PyStr.

(** ** Values decoded from JSON *)

(** What [json.load] can return.  A number is kept as its literal. *)
#[warnings="-register-all"]
Inductive json : Type :=
| JNull
| JBool (b : bool)
| JNum (literal : string)
| JStr (s : string)
| JArr (items : list json)
| JObj (members : list (string * json)).

(** The Python list of the given strings. *)
Definition str_list (l : list string) : json := JArr (map JStr l).

(** ** Exceptions and outcomes *)

(** The exception classes that reach the modelled code.  All of them derive
    from [Exception]; [OtherException] stands for any further class the
    client library may raise. *)
Inductive exn : Type :=
| FileNotFoundError
| JSONDecodeError
| AttributeError
| TypeError
| KeyError
| IndexError
| OtherException (name : string).

Inductive result (A : Type) : Type :=
| Ok (a : A)
| Raise (e : exn).
Arguments Ok {A} a.
Arguments Raise {A} e.

(** The [except] clauses of the source. *)
Definition except_FileNotFoundError (e : exn) : bool :=
  match e with FileNotFoundError => true | _ => false end.

Definition except_IndexError (e : exn) : bool :=
  match e with IndexError => true | _ => false end.

Definition except_Exception (e : exn) : bool := true.

(** ** Methods of the Python values held in [topics] *)

(** [topics.append(topic)]: only a list has the method. *)
Definition py_append (topics : json) (topic : string) : result json :=
  match topics with
  | JArr items => Ok (JArr (items ++ [JStr topic]))
  | _ => Raise AttributeError
  end.

(** [topics.pop(0)]: the first item and the list left.  An empty list
    raises [IndexError]; a dict has no key [0] (its keys are strings) and
    raises [KeyError]; the other values have no [pop]. *)
Definition py_pop0 (topics : json) : result (json * json) :=
  match topics with
  | JArr [] => Raise IndexError
  | JArr (first :: others) => Ok (first, JArr others)
  | JObj _ => Raise KeyError
  | _ => Raise AttributeError
  end.

(** [iter(topics)], as [enumerate] calls it: the items of a list, the keys
    of a dict, the characters of a string. *)
Definition py_iter (topics : json) : result (list json) :=
  match topics with
  | JArr items => Ok items
  | JObj members => Ok (map (fun kv => JStr (fst kv)) members)
  | JStr s => Ok (map JStr (PyStr.chars s))
  | _ => Raise TypeError
  end.

(** ** The collaborators' data *)

(** What the callback reads of the [MatrixRoom] and of the
    [RoomMessageText] it is given. *)
Record MatrixRoom : Type := {
  display_name : string;
  user_name : string -> option string
}.

Record RoomMessageText : Type := {
  sender : string;
  body : string
}.

(** What the program does to the outside, in the order it does it: a line
    printed on the console, a message body handed to [room_send] that
    returned normally, and one for which [room_send] raised. *)
Inductive io_event : Type :=
| Stdout (line : string)
| Sent (body : string)
| SendFailed (body : string).

(** The bodies handed to [room_send], delivered or not. *)
Fixpoint replies (tr : list io_event) : list string :=
  match tr with
  | [] => []
  | Stdout _ :: r => replies r
  | Sent b :: r => b :: replies r
  | SendFailed b :: r => b :: replies r
  end.

Definition ROOM_ID : string := "!BQEjGPeQwWMEvvOLtO:dark.fi".

Definition nl : string := String "010" EmptyString.

(** The text of the [#help] reply. *)
Definition help_text : string :=
  "Commands:" ++ nl ++
  nl ++
  "#topic      - Add a new weekly topic" ++ nl ++
  "#list       - List weekly topics" ++ nl ++
  "#start      - Start the meeting" ++ nl ++
  "#next       - Move onto next topic" ++ nl ++
  "#end        - Finish the meeting" ++ nl ++
  "#clear      - Clear all remaining topics" ++ nl ++
  "#help       - Show this help text".

Declare Scope py_scope.
Delimit Scope py_scope with py.

(** ** The client *)

(** What the client takes from its libraries. *)
Class Collaborators : Type := {
  (** [json.load] on the text of a file; [None] when it raises
      [JSONDecodeError]. *)
  json_load : string -> option json;
  (** The text [json.dump] writes. *)
  json_dump : json -> string;
  (** [AsyncClient.room_send]: given the room identifier and the body, it
      returns or raises, and the network moves on. *)
  Net : Type;
  room_send : string -> string -> Net -> result unit * Net;
  (** [traceback.format_exc()] in a handler of the exception. *)
  format_exc : exn -> string;
  (** [str(v)] for a decoded value that is not a [str]. *)
  py_str : json -> string
}.

(** What [json] promises of a list of strings: the text written for it
    decodes to it. *)
Definition dump_then_load `{Collaborators} : Prop :=
  forall l : list string, json_load (json_dump (str_list l)) = Some (str_list l).

Section Bot.

Context `{Collaborators}.

(** [f"{v}"]. *)
Definition fmt (v : json) : string :=
  match v with
  | JStr s => s
  | _ => py_str v
  end.

(** [f"{room.user_name(...)}"]: the name, or [None]. *)
Definition fmt_name (o : option string) : string :=
  match o with
  | Some name => name
  | None => "None"
  end.

(** The state of the world: the file [topics.json], the network, and what
    the program has done to the outside so far.  The modelled methods read
    and write no attribute of the client, so there is nothing else. *)
Record world : Type := {
  topics_json : option string;
  net : Net;
  trace : list io_event
}.

Definition M (A : Type) : Type := world -> result A * world.

Definition ret {A} (a : A) : M A := fun w => (Ok a, w).

Definition raise {A} (e : exn) : M A := fun w => (Raise e, w).

Definition bind {A B} (c : M A) (k : A -> M B) : M B :=
  fun w =>
    match c w with
    | (Ok a, w') => k a w'
    | (Raise e, w') => (Raise e, w')
    end.

Definition lift {A} (r : result A) : M A := fun w => (r, w).

(** [try: body except <class>: handler]. *)
Definition try_except {A} (body : M A) (class : exn -> bool)
    (handler : exn -> M A) : M A :=
  fun w =>
    match body w with
    | (Ok a, w') => (Ok a, w')
    | (Raise e, w') => if class e then handler e w' else (Raise e, w')
    end.

Notation "x <- c ;; k" := (bind c (fun x => k))
  (at level 61, c at next level, right associativity) : py_scope.
Notation "c ;; k" := (bind c (fun _ => k))
  (at level 61, right associativity) : py_scope.
Local Open Scope py_scope.

Definition emit (e : io_event) : M unit :=
  fun w => (Ok tt, {| topics_json := topics_json w; net := net w;
                      trace := trace w ++ [e] |}).

(** [print(line)]. *)
Definition print (line : string) : M unit := emit (Stdout line).

(** [await self.room_send(room_id=ROOM_ID, ..., content={..."body": message})]. *)
Definition call_room_send (message : string) : M unit :=
  fun w =>
    match room_send ROOM_ID message (net w) with
    | (Ok _, n) =>
        (Ok tt, {| topics_json := topics_json w; net := n;
                   trace := trace w ++ [Sent message] |})
    | (Raise e, n) =>
        (Raise e, {| topics_json := topics_json w; net := n;
                     trace := trace w ++ [SendFailed message] |})
    end.

(** [with open("topics.json", "r") as f: ... f.read()]. *)
Definition open_read : M string :=
  fun w =>
    match topics_json w with
    | Some text => (Ok text, w)
    | None => (Raise FileNotFoundError, w)
    end.

(** [with open("topics.json", "w") as f: f.write(text)]. *)
Definition open_write (text : string) : M unit :=
  fun w => (Ok tt, {| topics_json := Some text; net := net w;
                      trace := trace w |}).

Definition load (text : string) : M json :=
  match json_load text with
  | Some v => ret v
  | None => raise JSONDecodeError
  end.

(** Lines 124-136. *)
Definition send_message (message : string) : M unit :=
  try_except (call_room_send message) except_Exception
    (fun e => print ("Exception:" ++ format_exc e)).

(** Lines 143-145. *)
Definition write_topics (topics : json) : M unit :=
  open_write (json_dump topics).

(** Lines 147-153. *)
Definition get_topics : M json :=
  try_except (text <- open_read ;; load text) except_FileNotFoundError
    (fun _ => ret (JArr [])).

(** Lines 138-141. *)
Definition add_topic (topic : string) : M unit :=
  topics <- get_topics ;;
  topics <- lift (py_append topics topic) ;;
  write_topics topics.

(** Lines 155-164.  The [try] holds the [pop] alone; its handler sends and
    returns. *)
Definition next_topic : M unit :=
  topics <- get_topics ;;
  popped <- try_except (p <- lift (py_pop0 topics) ;; ret (Some p))
              except_IndexError
              (fun _ => send_message "No topics" ;; ret None) ;;
  match popped with
  | None => ret tt
  | Some (current_topic, topics) =>
      send_message ("Current topic is: " ++ fmt current_topic) ;;
      write_topics topics
  end.

(** The loop of lines 109-111, from index [i] on. *)
Fixpoint list_text (i : nat) (items : list json) (topic_text : string)
    : string :=
  match items with
  | [] => topic_text
  | topic :: rest =>
      list_text (S i) rest
        (topic_text ++ PyStr.of_nat i ++ ". " ++ fmt topic ++ nl)
  end.

(** Lines 84-122. *)
Definition cb_print_messages (room : MatrixRoom) (event : RoomMessageText)
    : M unit :=
  if negb (display_name room =? "dev") then ret tt else
  let message := PyStr.strip (body event) in
  (if PyStr.startswith message "#" then
     print (display_name room ++ " | "
            ++ fmt_name (user_name room (sender event)) ++ ": " ++ body event)
   else ret tt) ;;
  if PyStr.startswith message "#topic" then
    let topic := PyStr.slice_from (String.length "#topic ") message in
    print topic ;;
    add_topic topic ;;
    send_message ("Added topic '" ++ topic ++ "'")
  else if PyStr.startswith message "#help" then
    send_message help_text
  else if PyStr.startswith message "#list" then
    topics <- get_topics ;;
    items <- lift (py_iter topics) ;;
    send_message (list_text 1 items "")
  else if PyStr.startswith message "#start" then
    send_message "Meeting started." ;;
    next_topic
  else if PyStr.startswith message "#next" then
    next_topic
  else if PyStr.startswith message "#clear" then
    write_topics (JArr []) ;;
    send_message "Topics cleared."
  else if PyStr.startswith message "#end" then
    send_message "Meeting stopped."
  else ret tt.

(** The callback run on the events of a room as the sync loop delivers
    them, one after the other, until one raises. *)
Fixpoint deliver (room : MatrixRoom) (events : list RoomMessageText)
    : M unit :=
  match events with
  | [] => ret tt
  | event :: rest => cb_print_messages room event ;; deliver room rest
  end.

End Bot.

(** ** A reference JSON codec

    The text [json.dump] writes with its default settings
    ([ensure_ascii], separators [", "] and [": "]) and the decoder of
    [json.load], for texts whose strings stay within the code points
    0..255 and with numbers kept as their literals. *)

Module RefJson.

Local Open Scope char_scope.

Definition dquote : ascii := "034".
Definition backslash : ascii := "\".

Definition hex_digit (n : nat) : ascii :=
  match n with
  | 0 => "0" | 1 => "1" | 2 => "2" | 3 => "3" | 4 => "4" | 5 => "5"
  | 6 => "6" | 7 => "7" | 8 => "8" | 9 => "9" | 10 => "a" | 11 => "b"
  | 12 => "c" | 13 => "d" | 14 => "e" | _ => "f"
  end.

Definition hex_value (c : ascii) : option nat :=
  let n := nat_of_ascii c in
  if ((48 <=? n) && (n <=? 57))%nat then Some (n - 48)
  else if ((97 <=? n) && (n <=? 102))%nat then Some (n - 87)
  else if ((65 <=? n) && (n <=? 70))%nat then Some (n - 55)
  else None.

Local Open Scope string_scope.

Definition str1 (c : ascii) : string := String c EmptyString.

(** The replacement of one character inside a string literal. *)
Definition escape_char (c : ascii) : string :=
  let n := nat_of_ascii c in
  if (c =? dquote)%char then String backslash (str1 dquote)
  else if (c =? backslash)%char then String backslash (str1 backslash)
  else if (c =? "010")%char then String backslash "n"
  else if (c =? "013")%char then String backslash "r"
  else if (c =? "009")%char then String backslash "t"
  else if (c =? "008")%char then String backslash "b"
  else if (c =? "012")%char then String backslash "f"
  else if ((n <? 32) || (126 <? n))%nat then
    String backslash
      ("u00" ++ str1 (hex_digit (n / 16)) ++ str1 (hex_digit (n mod 16)))
  else str1 c.

Fixpoint escape (s : string) : string :=
  match s with
  | EmptyString => EmptyString
  | String c r => escape_char c ++ escape r
  end.

Definition quote (s : string) : string :=
  String dquote (escape s ++ str1 dquote).

(** [json.dumps(v)]. *)
Fixpoint dumps (v : json) : string :=
  match v with
  | JNull => "null"
  | JBool true => "true"
  | JBool false => "false"
  | JNum literal => literal
  | JStr s => quote s
  | JArr items =>
      "[" ++
      (fix join (items : list json) : string :=
         match items with
         | [] => ""
         | x :: rest =>
             match rest with
             | [] => dumps x
             | _ :: _ => dumps x ++ ", " ++ join rest
             end
         end) items
      ++ "]"
  | JObj members =>
      "{" ++
      (fix join (members : list (string * json)) : string :=
         match members with
         | [] => ""
         | (k, x) :: rest =>
             match rest with
             | [] => quote k ++ ": " ++ dumps x
             | _ :: _ => quote k ++ ": " ++ dumps x ++ ", " ++ join rest
             end
         end) members
      ++ "}"
  end.

(** The items of [dumps (str_list l)], between the brackets. *)
Fixpoint join_quoted (l : list string) : string :=
  match l with
  | [] => ""
  | x :: rest =>
      match rest with
      | [] => quote x
      | _ :: _ => quote x ++ ", " ++ join_quoted rest
      end
  end.

(** Decoding. *)

Definition is_ws (c : ascii) : bool :=
  ((c =? " ") || (c =? "009") || (c =? "010") || (c =? "013"))%char.

Fixpoint skip_ws (s : string) : string :=
  match s with
  | EmptyString => EmptyString
  | String c r => if is_ws c then skip_ws r else s
  end.

Definition is_digit (c : ascii) : bool :=
  let n := nat_of_ascii c in ((48 <=? n) && (n <=? 57))%nat.

(** Where the scanner of a string literal stands: between characters,
    after a backslash, or inside [\uXXXX] with [digits] digits to read. *)
Inductive scan_state : Type :=
| Plain
| Escaped
| Hex (digits : nat) (acc : nat).

Definition push (c : ascii) (o : option (string * string))
    : option (string * string) :=
  match o with
  | Some (s, rest) => Some (String c s, rest)
  | None => None
  end.

(** The body of a string literal, after its opening quote: the decoded
    string and what follows the closing quote. *)
Fixpoint scan_string (st : scan_state) (s : string)
    : option (string * string) :=
  match s with
  | EmptyString => None
  | String c r =>
      match st with
      | Plain =>
          if (c =? dquote)%char then Some (EmptyString, r)
          else if (c =? backslash)%char then scan_string Escaped r
          else if (nat_of_ascii c <? 32)%nat then None
          else push c (scan_string Plain r)
      | Escaped =>
          if (c =? dquote)%char then push dquote (scan_string Plain r)
          else if (c =? backslash)%char then push backslash (scan_string Plain r)
          else if (c =? "/")%char then push "/"%char (scan_string Plain r)
          else if (c =? "b")%char then push "008"%char (scan_string Plain r)
          else if (c =? "f")%char then push "012"%char (scan_string Plain r)
          else if (c =? "n")%char then push "010"%char (scan_string Plain r)
          else if (c =? "r")%char then push "013"%char (scan_string Plain r)
          else if (c =? "t")%char then push "009"%char (scan_string Plain r)
          else if (c =? "u")%char then scan_string (Hex 4 0) r
          else None
      | Hex digits acc =>
          match hex_value c with
          | None => None
          | Some d =>
              let acc := 16 * acc + d in
              match digits with
              | 0 | 1 =>
                  if (acc <? 256)%nat
                  then push (ascii_of_nat acc) (scan_string Plain r)
                  else None
              | S digits => scan_string (Hex digits acc) r
              end
          end
      end
  end.

(** The longest run of digits at the head of [s], and the rest. *)
Fixpoint take_digits (s : string) : string * string :=
  match s with
  | EmptyString => (EmptyString, EmptyString)
  | String c r =>
      if is_digit c
      then let (d, rest) := take_digits r in (String c d, rest)
      else (EmptyString, s)
  end.

(** The number at the head of [s]: an optional sign, [0] or a run of
    digits not starting with [0], then a fraction and an exponent when they
    are complete. *)
Definition scan_number (s : string) : option (string * string) :=
  let (sign, s1) :=
    match s with
    | String "-" r => ("-", r)
    | _ => ("", s)
    end in
  let int_part :=
    match s1 with
    | String "0" r => Some ("0", r)
    | _ => match take_digits s1 with
           | (EmptyString, _) => None
           | (d, r) => Some (d, r)
           end
    end in
  match int_part with
  | None => None
  | Some (i, s2) =>
      let (frac, s3) :=
        match s2 with
        | String "." r =>
            match take_digits r with
            | (EmptyString, _) => ("", s2)
            | (d, r') => ("." ++ d, r')
            end
        | _ => ("", s2)
        end in
      let (expo, s4) :=
        match s3 with
        | String e r =>
            if ((e =? "e") || (e =? "E"))%char then
              let (sg, r1) :=
                match r with
                | String "+" r' => ("+", r')
                | String "-" r' => ("-", r')
                | _ => ("", r)
                end in
              match take_digits r1 with
              | (EmptyString, _) => ("", s3)
              | (d, r') => (str1 e ++ sg ++ d, r')
              end
            else ("", s3)
        | EmptyString => ("", s3)
        end in
      Some (sign ++ i ++ frac ++ expo, s4)
  end.

(** [s] without the prefix [p], when it starts with it. *)
Fixpoint strip_prefix (p s : string) : option string :=
  match p, s with
  | EmptyString, _ => Some s
  | String a p', String b s' =>
      if (a =? b)%char then strip_prefix p' s' else None
  | String _ _, EmptyString => None
  end.

(** [dict(pairs)]: a key met again keeps its place and takes the new
    value. *)
Fixpoint dict_set (k : string) (v : json) (d : list (string * json))
    : list (string * json) :=
  match d with
  | [] => [(k, v)]
  | (k', v') :: rest =>
      if k =? k' then (k, v) :: rest else (k', v') :: dict_set k v rest
  end.

Definition dict (pairs : list (string * json)) : list (string * json) :=
  fold_left (fun d kv => dict_set (fst kv) (snd kv) d) pairs [].

(** The decoder proper.  [parse_value] reads one value at the head of [s];
    [parse_items] reads the items of an array up to its closing bracket,
    [parse_members] the members of an object up to its closing brace.
    Each call spends one unit of [fuel]. *)
Fixpoint parse_value (fuel : nat) (s : string) : option (json * string) :=
  match fuel with
  | 0 => None
  | S fuel =>
      match s with
      | EmptyString => None
      | String c r =>
          if (c =? dquote)%char then
            match scan_string Plain r with
            | Some (str, rest) => Some (JStr str, rest)
            | None => None
            end
          else if (c =? "{")%char then
            match skip_ws r with
            | String "}" rest => Some (JObj [], rest)
            | r' =>
                match parse_members fuel r' with
                | Some (pairs, rest) => Some (JObj (dict pairs), rest)
                | None => None
                end
            end
          else if (c =? "[")%char then
            match skip_ws r with
            | String "]" rest => Some (JArr [], rest)
            | r' =>
                match parse_items fuel r' with
                | Some (items, rest) => Some (JArr items, rest)
                | None => None
                end
            end
          else
            match strip_prefix "null" s with
            | Some rest => Some (JNull, rest)
            | None =>
            match strip_prefix "true" s with
            | Some rest => Some (JBool true, rest)
            | None =>
            match strip_prefix "false" s with
            | Some rest => Some (JBool false, rest)
            | None =>
            match scan_number s with
            | Some (literal, rest) => Some (JNum literal, rest)
            | None =>
            match strip_prefix "NaN" s with
            | Some rest => Some (JNum "NaN", rest)
            | None =>
            match strip_prefix "Infinity" s with
            | Some rest => Some (JNum "Infinity", rest)
            | None =>
            match strip_prefix "-Infinity" s with
            | Some rest => Some (JNum "-Infinity", rest)
            | None => None
            end end end end end end end
      end
  end

with parse_items (fuel : nat) (s : string) : option (list json * string) :=
  match fuel with
  | 0 => None
  | S fuel =>
      match parse_value fuel s with
      | None => None
      | Some (v, r) =>
          match skip_ws r with
          | String "]" rest => Some ([v], rest)
          | String "," r' =>
              match parse_items fuel (skip_ws r') with
              | Some (items, rest) => Some (v :: items, rest)
              | None => None
              end
          | _ => None
          end
      end
  end

with parse_members (fuel : nat) (s : string)
    : option (list (string * json) * string) :=
  match fuel with
  | 0 => None
  | S fuel =>
      match s with
      | String c r =>
          if (c =? dquote)%char then
            match scan_string Plain r with
            | None => None
            | Some (key, r1) =>
                match skip_ws r1 with
                | String ":" r2 =>
                    match parse_value fuel (skip_ws r2) with
                    | None => None
                    | Some (v, r3) =>
                        match skip_ws r3 with
                        | String "}" rest => Some ([(key, v)], rest)
                        | String "," r4 =>
                            match parse_members fuel (skip_ws r4) with
                            | Some (pairs, rest) =>
                                Some ((key, v) :: pairs, rest)
                            | None => None
                            end
                        | _ => None
                        end
                    end
                | _ => None
                end
            end
          else None
      | EmptyString => None
      end
  end.

(** [json.loads(text)]: one value, with blanks around it and nothing
    else. *)
Definition loads (text : string) : option json :=
  match parse_value (S (String.length text)) (skip_ws text) with
  | Some (v, rest) =>
      match skip_ws rest with
      | EmptyString => Some v
      | _ => None
      end
  | None => None
  end.

End RefJson.

Notation "x <- c ;; k" := (bind c (fun x => k))
  (at level 61, c at next level, right associativity) : py_scope.
Notation "c ;; k" := (bind c (fun _ => k))
  (at level 61, right associativity) : py_scope.

Arguments send_message {_} _ _ : simpl never.
Arguments get_topics {_} _ : simpl never.
Arguments write_topics {_} _ _ : simpl never.
Arguments add_topic {_} _ _ : simpl never.
Arguments next_topic {_} _ : simpl never.

(** ** Vocabulary of the statements *)

Section Vocabulary.

Context `{Collaborators}.

Local Open Scope py_scope.

(** [add_topic] on each topic in turn. *)
Fixpoint add_topics (ts : list string) : M unit :=
  match ts with
  | [] => ret tt
  | t :: rest => add_topic t ;; add_topics rest
  end.

(** [n] calls of [next_topic]. *)
Fixpoint next_topics (n : nat) : M unit :=
  match n with
  | 0 => ret tt
  | S k => next_topic ;; next_topics k
  end.

(** The store of [w] holds the topics [l]: that is what [get_topics]
    returns. *)
Definition holds (w : world) (l : list string) : Prop :=
  fst (get_topics w) = Ok (str_list l).

(** From [w], [c] raises nothing, hands the bodies [said] to [room_send] in
    this order, and ends in a world whose store holds [l]. *)
Definition runs_to (c : M unit) (w : world) (l : list string)
    (said : list string) : Prop :=
  exists w', c w = (Ok tt, w')
    /\ holds w' l
    /\ replies (trace w') = (replies (trace w) ++ said)%list.

(** The file exists and its text decodes to the empty list. *)
Definition present_and_empty (w : world) : Prop :=
  exists text, topics_json w = Some text /\ json_load text = Some (JArr []).

(** The text decodes to a list of strings. *)
Definition encodes_strings (text : string) : Prop :=
  exists l, json_load text = Some (str_list l).

(** The line the callback prints for a message that starts with [#]. *)
Definition echo_line (room : MatrixRoom) (event : RoomMessageText) : string :=
  display_name room ++ " | "
  ++ fmt_name (user_name room (sender event)) ++ ": " ++ body event.

End Vocabulary.

(** A world with the same file and the same past, on another network. *)
Definition on_net {E1 E2 : Collaborators} (n : @Net E2) (w : @world E1)
    : @world E2 :=
  {| topics_json := @topics_json E1 w; net := n; trace := @trace E1 w |}.

(** The same libraries with a [room_send] that always returns. *)
Definition reliable (E : Collaborators) : Collaborators :=
  {| json_load := @json_load E;
     json_dump := @json_dump E;
     Net := unit;
     room_send := fun _ _ n => (Ok tt, n);
     format_exc := @format_exc E;
     py_str := @py_str E |}.

(** Two runs, maybe with different libraries, that end with the same
    outcome and the same file and hand the same bodies to [room_send]. *)
Definition same_run {E1 E2 : Collaborators} {A : Type}
    (w1 : @world E1) (run1 : result A * @world E1)
    (w2 : @world E2) (run2 : result A * @world E2) : Prop :=
  fst run1 = fst run2
  /\ topics_json (snd run1) = topics_json (snd run2)
  /\ exists evs1 evs2,
       trace (snd run1) = (trace w1 ++ evs1)%list
       /\ trace (snd run2) = (trace w2 ++ evs2)%list
       /\ replies evs1 = replies evs2.

(** [c1] and [c2] run the same way from any two worlds with the same
    file. *)
Definition simulates {E1 E2 : Collaborators} {A : Type}
    (c1 : @M E1 A) (c2 : @M E2 A) : Prop :=
  forall w1 w2, topics_json w1 = topics_json w2 ->
    same_run w1 (c1 w1) w2 (c2 w2).

(** Reference libraries: the codec above, a [room_send] that answers as
    [send] says, and a fixed traceback.  [py_str] is Python's on [None],
    [True] and [False]; on the other values the JSON text stands in for
    it, and no statement below reads it. *)
Definition library (send : string -> result unit) : Collaborators :=
  {| json_load := RefJson.loads;
     json_dump := RefJson.dumps;
     Net := unit;
     room_send := fun _ message n => (send message, n);
     format_exc := fun _ => "Traceback (most recent call last):";
     py_str := fun v =>
       match v with
       | JNull => "None"
       | JBool true => "True"
       | JBool false => "False"
       | _ => RefJson.dumps v
       end |}.

Definition delivering : Collaborators := library (fun _ => Ok tt).

Definition failing : Collaborators :=
  library (fun _ => Raise (OtherException "LocalProtocolError")).

(** A world of the reference libraries with the given file and an empty
    past. *)
Definition world_of (E : Collaborators) (n : @Net E) (file : option string)
    : @world E :=
  {| topics_json := file; net := n; trace := [] |}.

(** The file does not exist, on a network that delivers. *)
Definition no_file : @world delivering := world_of delivering tt None.

(** The file holds the empty list. *)
Definition empty_file : @world delivering :=
  world_of delivering tt (Some "[]").

(** The file holds an empty JSON object. *)
Definition dict_file : @world delivering :=
  world_of delivering tt (Some "{}").

(** The file holds one topic, on a network where every sending fails. *)
Definition cut_off : @world failing :=
  world_of failing tt (Some (RefJson.dumps (str_list ["budget"]))).

Definition dev_room : MatrixRoom :=
  {| display_name := "dev"; user_name := fun _ => Some "alice" |}.

Definition other_room : MatrixRoom :=
  {| display_name := "general"; user_name := fun _ => Some "alice" |}.

Definition message (text : string) : RoomMessageText :=
  {| sender := "@alice:dark.fi"; body := text |}.

(** ** The dispatcher seen as a machine on a list of topics *)

(** What a stripped body asks for, by the order of the tests of lines
    92-122. *)
Inductive command : Type :=
| CmdTopic (topic : string)
| CmdHelp
| CmdList
| CmdStart
| CmdNext
| CmdClear
| CmdEnd
| CmdNone.

Definition parse_command (message : string) : command :=
  if PyStr.startswith message "#topic" then
    CmdTopic (PyStr.slice_from 7 message)
  else if PyStr.startswith message "#help" then CmdHelp
  else if PyStr.startswith message "#list" then CmdList
  else if PyStr.startswith message "#start" then CmdStart
  else if PyStr.startswith message "#next" then CmdNext
  else if PyStr.startswith message "#clear" then CmdClear
  else if PyStr.startswith message "#end" then CmdEnd
  else CmdNone.

(** One line [<i>. <topic>] per topic, numbered from [first]. *)
Definition numbered_from (first : nat) (l : list string) : string :=
  String.concat ""
    (map (fun p => PyStr.of_nat (fst p) ++ ". " ++ snd p ++ nl)
       (combine (seq first (List.length l)) l)).

(** The queue after a command, and the replies to it. *)
Definition queue_step (l : list string) (c : command)
    : list string * list string :=
  match c with
  | CmdTopic t => ((l ++ [t])%list, ["Added topic '" ++ t ++ "'"])
  | CmdHelp => (l, [help_text])
  | CmdList => (l, [numbered_from 1 l])
  | CmdStart =>
      match l with
      | [] => ([], ["Meeting started."; "No topics"])
      | t :: rest => (rest, ["Meeting started."; "Current topic is: " ++ t])
      end
  | CmdNext =>
      match l with
      | [] => ([], ["No topics"])
      | t :: rest => (rest, ["Current topic is: " ++ t])
      end
  | CmdClear => ([], ["Topics cleared."])
  | CmdEnd => (l, ["Meeting stopped."])
  | CmdNone => (l, [])
  end.

Fixpoint queue_run (l : list string) (messages : list string)
    : list string * list string :=
  match messages with
  | [] => (l, [])
  | m :: rest =>
      let (l1, said1) := queue_step l (parse_command m) in
      let (l2, said2) := queue_run l1 rest in
      (l2, (said1 ++ said2)%list)
  end.

(** The prefixes of the commands that take no argument. *)
Definition plain_commands : list string :=
  ["#help"; "#list"; "#start"; "#next"; "#clear"; "#end"].

(** A world like [w] with another file. *)
Definition with_file `{Collaborators} (file : option string) (w : world)
    : world :=
  {| topics_json := file; net := net w; trace := trace w |}.

(** The file holds a text that is not JSON. *)
Definition broken_file : @world delivering :=
  world_of delivering tt (Some "[1, 2").

(** [c] raises nothing, from any world. *)
Definition always_returns `{Collaborators} (c : M unit) : Prop :=
  forall w, exists w', c w = (Ok tt, w').

(** [c] leaves the file as it is, whether it returns or raises. *)
Definition keeps_file `{Collaborators} {A : Type} (c : M A) : Prop :=
  forall w, topics_json (snd (c w)) = topics_json w.

(** ** Logging in: lines 39-77 and 166-173 *)

(** [v[key]] for a string [key]: the value of the key in a dict (which has
    each key once), [KeyError] when the dict has no such key; the other
    values cannot be indexed by a string. *)
Definition py_getitem (v : json) (key : string) : result json :=
  match v with
  | JObj members =>
      match find (fun kv => fst kv =? key) members with
      | Some kv => Ok (snd kv)
      | None => Raise KeyError
      end
  | _ => Raise TypeError
  end.

(** What [AsyncClient.login] returns: a [LoginResponse] with its three
    fields, or another response, of which only its [str] is read. *)
Inductive login_reply : Type :=
| LoginResponse (resp_user_id resp_device_id resp_access_token : string)
| LoginError (shown : string).

(** How [login] ends: it returns, an exception leaves it, or [sys.exit]
    is called. *)
Inductive ending : Type :=
| Returns
| Raises (e : exn)
| Exits (status : nat).

(** What [login] takes from the client library and from Python. *)
Class SessionLibrary `{Collaborators} : Type := {
  (** [self.load_store()], which reads the three attributes. *)
  load_store : json -> json -> json -> Net -> result unit * Net;
  (** [super().login(password)]. *)
  super_login : json -> Net -> result login_reply * Net;
  (** [str(err)]. *)
  str_exn : exn -> string;
  (** Whether the class of this name derives from [OSError]. *)
  os_error : string -> bool;
  (** [bool(x)] for the number of this literal. *)
  nonzero : string -> bool;
  (** The password read from [config.json] when the module is loaded. *)
  ALICE_PASSWORD : json
}.

Section Session.

Context `{Collaborators} `{!SessionLibrary}.

(** The file [credentials.json], the three attributes of the client that
    [login] reads and writes, the state of the library, and the lines
    printed. *)
Record client : Type := {
  session_file : option string;
  access_token : json;
  user_id : json;
  device_id : json;
  server : Net;
  stdout : list string
}.

(** [except IOError], which is [OSError], and [except json.JSONDecodeError]. *)
Definition except_IOError (e : exn) : bool :=
  match e with
  | FileNotFoundError => true
  | OtherException name => os_error name
  | _ => false
  end.

Definition except_JSONDecodeError (e : exn) : bool :=
  match e with JSONDecodeError => true | _ => false end.

(** [not v] is [negb (truthy v)]. *)
Definition truthy (v : json) : bool :=
  match v with
  | JNull => false
  | JBool b => b
  | JNum literal => nonzero literal
  | JStr s => negb (s =? "")
  | JArr items => match items with [] => false | _ => true end
  | JObj members => match members with [] => false | _ => true end
  end.

Definition say (line : string) (c : client) : client :=
  {| session_file := session_file c; access_token := access_token c;
     user_id := user_id c; device_id := device_id c; server := server c;
     stdout := stdout c ++ [line] |}.

Definition set_access_token (v : json) (c : client) : client :=
  {| session_file := session_file c; access_token := v;
     user_id := user_id c; device_id := device_id c; server := server c;
     stdout := stdout c |}.

Definition set_user_id (v : json) (c : client) : client :=
  {| session_file := session_file c; access_token := access_token c;
     user_id := v; device_id := device_id c; server := server c;
     stdout := stdout c |}.

Definition set_device_id (v : json) (c : client) : client :=
  {| session_file := session_file c; access_token := access_token c;
     user_id := user_id c; device_id := v; server := server c;
     stdout := stdout c |}.

Definition set_server (n : Net) (c : client) : client :=
  {| session_file := session_file c; access_token := access_token c;
     user_id := user_id c; device_id := device_id c; server := n;
     stdout := stdout c |}.

(** The JSON object of lines 169-173. *)
Definition details (user device token : string) : json :=
  JObj [("access_token", JStr token); ("device_id", JStr device);
        ("user_id", JStr user)].

(** Lines 166-173. *)
Definition write_details_to_disk (user device token : string) (c : client)
    : client :=
  {| session_file := Some (json_dump (details user device token));
     access_token := access_token c; user_id := user_id c;
     device_id := device_id c; server := server c; stdout := stdout c |}.

(** Lines 52-60, the body of the [try] on the text of the file. *)
Definition restore (text : string) (c : client) : result unit * client :=
  match json_load text with
  | None => (Raise JSONDecodeError, c)
  | Some config =>
  match py_getitem config "access_token" with
  | Raise e => (Raise e, c)
  | Ok token =>
  let c := set_access_token token c in
  match py_getitem config "user_id" with
  | Raise e => (Raise e, c)
  | Ok user =>
  let c := set_user_id user c in
  match py_getitem config "device_id" with
  | Raise e => (Raise e, c)
  | Ok device =>
  let c := set_device_id device c in
  match load_store (access_token c) (user_id c) (device_id c) (server c) with
  | (Raise e, n) => (Raise e, set_server n c)
  | (Ok _, n) =>
      (Ok tt,
       say ("Logged in using stored credentials: "
            ++ fmt (user_id c) ++ " on " ++ fmt (device_id c))
         (set_server n c))
  end end end end end.

(** Lines 50-65: the file is looked at only when it exists; the two
    handlers print and go on. *)
Definition restore_if_stored (c : client) : result unit * client :=
  match session_file c with
  | None => (Ok tt, c)
  | Some text =>
      match restore text c with
      | (Ok _, c') => (Ok tt, c')
      | (Raise e, c') =>
          if except_IOError e then
            (Ok tt,
             say ("Couldn't load session from file. Logging in. Error: "
                  ++ str_exn e) c')
          else if except_JSONDecodeError e then
            (Ok tt, say "Couldn't read JSON file; overwriting" c')
          else (Raise e, c')
      end
  end.

(** Lines 39-77.  What the library does to the attributes during
    [super().login] is not modelled; [login] reads none of them after. *)
Definition login (c : client) : ending * client :=
  match restore_if_stored c with
  | (Raise e, c) => (Raises e, c)
  | (Ok _, c) =>
      if negb (truthy (user_id c)) || negb (truthy (access_token c))
         || negb (truthy (device_id c))
      then
        match super_login ALICE_PASSWORD (server c) with
        | (Raise e, n) => (Raises e, set_server n c)
        | (Ok (LoginResponse user device token), n) =>
            (Returns,
             write_details_to_disk user device token
               (say "Logged in using a password; saving details to disk"
                  (set_server n c)))
        | (Ok (LoginError shown), n) =>
            (Exits 1, say ("Failed to log in: " ++ shown) (set_server n c))
        end
      else (Returns, c)
  end.

End Session.

(** ** The sync loop: lines 175-180 *)

Section SyncLoop.

Context `{Collaborators}.

(** [self.sync_forever(30000, full_state=True)], which runs the callbacks
    and may change anything of the world. *)
Variable sync_forever : M unit.

(** One turn of the loop of [do_sync]: [true] when the [try] returned,
    [false] when the handler has printed the traceback. *)
Definition sync_once : M bool :=
  try_except (bind sync_forever (fun _ => ret true)) except_Exception
    (fun e => bind (print ("Exception:" ++ format_exc e))
                (fun _ => ret false)).

(** [do_sync] for at most [fuel] turns of its loop: how it ended and in
    which world, or [None] when it is still looping. *)
Fixpoint do_sync (fuel : nat) (w : world) : option (result unit * world) :=
  match fuel with
  | 0 => None
  | S fuel =>
      match sync_once w with
      | (Ok true, w') => Some (Ok tt, w')
      | (Ok false, w') => do_sync fuel w'
      | (Raise e, w') => Some (Raise e, w')
      end
  end.

End SyncLoop.

(** A client library for the examples: the store loads, and the server
    answers a password login with [reply]. *)
Definition session_library (reply : login_reply) : @SessionLibrary delivering :=
  {| load_store := fun _ _ _ n => (Ok tt, n);
     super_login := fun _ n => (Ok reply, n);
     str_exn := fun _ => "error";
     os_error := fun _ => false;
     nonzero := fun literal => negb (literal =? "0");
     ALICE_PASSWORD := JStr "secret" |}.

Definition accepting : @SessionLibrary delivering :=
  session_library (LoginResponse "@alice:dark.fi" "DEVICE" "token").

Definition rejecting : @SessionLibrary delivering :=
  session_library (LoginError "M_FORBIDDEN").

(** A client library whose store file is missing: [load_store] raises
    [FileNotFoundError]. *)
Definition store_missing : @SessionLibrary delivering :=
  {| load_store := fun _ _ _ n => (Raise FileNotFoundError, n);
     super_login := fun _ n => (Ok (LoginError "M_FORBIDDEN"), n);
     str_exn := fun _ => "[Errno 2] No such file or directory";
     os_error := fun _ => false;
     nonzero := fun literal => negb (literal =? "0");
     ALICE_PASSWORD := JStr "secret" |}.

(** A client just built: no token, no user identifier and no device
    yet. *)
Definition new_client (file : option string) : @client delivering :=
  @Build_client delivering file (JStr "") (JStr "") (JStr "") tt [].

(** More worlds and clients for the examples. *)

(** The file holds two topics. *)
Definition two_topics : @world delivering :=
  world_of delivering tt
    (Some (RefJson.dumps (str_list ["budget"; "hiring"]))).

(** The file [credentials.json] a password login has saved. *)
Definition saved_details : string :=
  RefJson.dumps (details "@alice:dark.fi" "DEVICE" "token").

(** The file [credentials.json] with the access token alone. *)
Definition token_only : string :=
  RefJson.dumps (JObj [("access_token", JStr "token")]).

(** A [sync_forever] that raises until two tracebacks have been printed,
    and then returns. *)
Definition flaky_sync : @M delivering unit :=
  fun w =>
    if (List.length (trace w) <? 2)%nat
    then (Raise (OtherException "ClientConnectionError"), w)
    else (Ok tt, w).

(** * Properties *)

(** ** Strings *)

Lemma append_assoc (a b c : string) : (a ++ b) ++ c = a ++ (b ++ c).
Proof. induction a as [|x a IH]; simpl; [reflexivity | now rewrite IH]. Qed.

Lemma length_append (a b : string) :
  String.length (a ++ b) = String.length a + String.length b.
Proof. induction a as [|x a IH]; simpl; [reflexivity | now rewrite IH]. Qed.

(** [startswith] holds exactly of the strings that extend the prefix. *)
Lemma startswith_iff (s p : string) :
  PyStr.startswith s p = true <-> exists r, s = p ++ r.
Proof.
  revert s. induction p as [|a p IH]; intros s; simpl.
  - split; [intros _; now exists s | reflexivity].
  - destruct s as [|b s].
    + split; [discriminate | intros [r Hr]; discriminate].
    + rewrite andb_true_iff, Ascii.eqb_eq, IH.
      split; [intros [-> [r ->]]; now exists r|].
      intros [r Hr]. injection Hr as -> ->. split; [reflexivity | now exists r].
Qed.

(** ** The store *)

Section StoreFacts.

Context `{Collaborators}.

Local Open Scope py_scope.

Lemma get_topics_absent (w : world) :
  topics_json w = None -> get_topics w = (Ok (JArr []), w).
Proof.
  intros Hf. unfold get_topics, try_except, bind, open_read.
  now rewrite Hf.
Qed.

Lemma get_topics_present (w : world) (text : string) :
  topics_json w = Some text ->
  get_topics w =
    (match json_load text with
     | Some v => Ok v
     | None => Raise JSONDecodeError
     end, w).
Proof.
  intros Hf. unfold get_topics, try_except, bind, open_read, load.
  rewrite Hf. now destruct (json_load text).
Qed.

(** Reading the topics changes nothing. *)
Lemma get_topics_pure (w : world) : snd (get_topics w) = w.
Proof.
  destruct (topics_json w) as [text|] eqn:Hf.
  - now rewrite (get_topics_present w text Hf).
  - now rewrite (get_topics_absent w Hf).
Qed.

Lemma get_topics_holds (w : world) (l : list string) :
  holds w l -> get_topics w = (Ok (str_list l), w).
Proof.
  unfold holds. intros Hl.
  rewrite (surjective_pairing (get_topics w)), Hl, get_topics_pure.
  reflexivity.
Qed.

(** What a world whose file was just written holds. *)
Lemma holds_written (w : world) (l : list string) :
  dump_then_load ->
  topics_json w = Some (json_dump (str_list l)) -> holds w l.
Proof.
  intros Hlaw Hf. unfold holds.
  now rewrite (get_topics_present w _ Hf), Hlaw.
Qed.

Lemma holds_absent (w : world) : topics_json w = None -> holds w [].
Proof. intros Hf. unfold holds. now rewrite get_topics_absent. Qed.

(** [holds] looks at the file only. *)
Lemma holds_file (w w' : world) (l : list string) :
  topics_json w = topics_json w' -> holds w l -> holds w' l.
Proof.
  unfold holds. intros Hf Hl.
  destruct (topics_json w') as [text|] eqn:Hf'.
  - rewrite (get_topics_present w text Hf) in Hl.
    now rewrite (get_topics_present w' text Hf').
  - rewrite (get_topics_absent w Hf) in Hl.
    now rewrite (get_topics_absent w' Hf').
Qed.

(** The two ways [send_message] ends: it never raises, and it leaves the
    file alone. *)
Lemma send_message_cases (m : string) (w : world) :
  (exists n, room_send ROOM_ID m (net w) = (Ok tt, n)
     /\ send_message m w =
          (Ok tt, {| topics_json := topics_json w; net := n;
                     trace := trace w ++ [Sent m] |}))
  \/ (exists e n, room_send ROOM_ID m (net w) = (Raise e, n)
     /\ send_message m w =
          (Ok tt, {| topics_json := topics_json w; net := n;
                     trace := trace w ++ [SendFailed m;
                                Stdout ("Exception:" ++ format_exc e)] |})).
Proof.
  unfold send_message, try_except, call_room_send, print, emit.
  destruct (room_send ROOM_ID m (net w)) as [[[]|e] n]; simpl.
  - left. now exists n.
  - right. exists e, n. split; [reflexivity|].
    now rewrite <- app_assoc.
Qed.

Lemma replies_app (a b : list io_event) :
  replies (a ++ b) = (replies a ++ replies b)%list.
Proof.
  induction a as [|[l|m|m] a IH]; simpl; [reflexivity | assumption | |];
    now rewrite IH.
Qed.

Lemma send_message_spec (m : string) (w : world) :
  exists w', send_message m w = (Ok tt, w')
    /\ topics_json w' = topics_json w
    /\ replies (trace w') = (replies (trace w) ++ [m])%list.
Proof.
  destruct (send_message_cases m w) as [(n & _ & ->)|(e & n & _ & ->)];
    eexists; (split; [reflexivity|]); simpl; (split; [reflexivity|]);
    now rewrite replies_app.
Qed.

Lemma add_topic_holds (t : string) (w : world) (l : list string) :
  holds w l ->
  add_topic t w =
    (Ok tt, {| topics_json := Some (json_dump (str_list (l ++ [t])));
               net := net w; trace := trace w |}).
Proof.
  intros Hl. unfold add_topic, bind. rewrite (get_topics_holds w l Hl).
  unfold str_list. simpl. unfold write_topics, open_write.
  now rewrite map_app.
Qed.

End StoreFacts.

Section QueueFacts.

Context `{Collaborators}.

Local Open Scope py_scope.

(** On an empty store [next_topic] is the sending of [No topics]. *)
Lemma next_topic_empty (w : world) :
  holds w [] -> next_topic w = send_message "No topics" w.
Proof.
  intros Hl. unfold next_topic, bind at 1.
  rewrite (get_topics_holds w [] Hl). simpl.
  unfold bind, try_except, lift. simpl. unfold bind.
  destruct (send_message_spec "No topics" w) as (w' & -> & _).
  reflexivity.
Qed.

(** On a store that holds a first topic, [next_topic] sends it and writes
    the others. *)
Lemma next_topic_first (w : world) (t : string) (l : list string) :
  holds w (t :: l) ->
  exists w1,
    send_message ("Current topic is: " ++ t) w = (Ok tt, w1)
    /\ next_topic w =
         (Ok tt, {| topics_json := Some (json_dump (str_list l));
                    net := net w1; trace := trace w1 |}).
Proof.
  intros Hl. unfold next_topic, bind at 1.
  rewrite (get_topics_holds w (t :: l) Hl). simpl.
  unfold bind, try_except, lift, ret. simpl.
  destruct (send_message_spec ("Current topic is: " ++ t) w) as (w1 & Hs & _).
  exists w1. split; [assumption|]. simpl in Hs. rewrite Hs. reflexivity.
Qed.

Lemma add_topics_holds (ts l : list string) (w : world) :
  dump_then_load ->
  holds w l ->
  exists w', add_topics ts w = (Ok tt, w')
    /\ holds w' (l ++ ts) /\ trace w' = trace w.
Proof.
  intros Hlaw. revert l w.
  induction ts as [|t ts IH]; intros l w Hl; simpl.
  - exists w. rewrite app_nil_r. now repeat split.
  - unfold bind. rewrite (add_topic_holds t w l Hl).
    destruct (IH (l ++ [t])%list
                {| topics_json := Some (json_dump (str_list (l ++ [t])));
                   net := net w; trace := trace w |})
      as (w' & Hrun & Hh & Htr).
    { now apply holds_written. }
    exists w'. rewrite <- app_assoc in Hh. now repeat split.
Qed.

Lemma next_topics_holds (ts rest : list string) (w : world) :
  dump_then_load ->
  holds w (ts ++ rest) ->
  exists w', next_topics (List.length ts) w = (Ok tt, w')
    /\ holds w' rest
    /\ replies (trace w') =
         (replies (trace w)
          ++ map (fun t => ("Current topic is: " ++ t)%string) ts)%list.
Proof.
  intros Hlaw. revert w.
  induction ts as [|t ts IH]; intros w Hl; simpl.
  - exists w. rewrite app_nil_r. now repeat split.
  - destruct (next_topic_first w t (ts ++ rest) Hl) as (w1 & Hs & Hn).
    destruct (send_message_spec ("Current topic is: " ++ t) w)
      as (w1' & Hs' & _ & Hr).
    rewrite Hs in Hs'. injection Hs' as <-.
    unfold bind. rewrite Hn.
    destruct (IH {| topics_json := Some (json_dump (str_list (ts ++ rest)));
                    net := net w1; trace := trace w1 |})
      as (w' & Hrun & Hh & Hrep).
    { now apply holds_written. }
    exists w'. split; [assumption|]. split; [assumption|].
    rewrite Hrep. simpl. rewrite Hr, <- app_assoc. reflexivity.
Qed.

(** C1.  First in, first out.  From an empty store, adding the topics
    [t1 .. tn] one after the other and then calling [next_topic] [n] times
    raises nothing, announces [t1], [t2], ..., [tn] in this order (one
    reply [Current topic is: ti] per call, and no other), and leaves the
    store empty.  The decoder is only asked to read back what the encoder
    wrote. *)
Theorem fifo_order (ts : list string) (w : world) :
  dump_then_load ->
  holds w [] ->
  exists w',
    (add_topics ts ;; next_topics (List.length ts)) w = (Ok tt, w')
    /\ replies (trace w') =
         (replies (trace w)
          ++ map (fun t => ("Current topic is: " ++ t)%string) ts)%list
    /\ holds w' [].
Proof.
  intros Hlaw Hempty.
  destruct (add_topics_holds ts [] w Hlaw Hempty) as (w1 & Hadd & Hh & Htr).
  simpl in Hh. rewrite <- (app_nil_r ts) in Hh.
  destruct (next_topics_holds ts [] w1 Hlaw Hh) as (w' & Hpop & Hh' & Hrep).
  exists w'. unfold bind. rewrite Hadd. repeat split; try assumption.
  now rewrite Hrep, Htr.
Qed.

(** C3, as the code has it.  On a store that holds no topic, the file
    being absent or present, [next_topic] raises nothing, hands the one
    reply [No topics] to [room_send], and leaves the file exactly as it
    was: an absent file stays absent, and the store still holds no
    topic. *)
Theorem next_topic_on_empty (w : world) :
  holds w [] ->
  exists w',
    next_topic w = (Ok tt, w')
    /\ replies (trace w') = (replies (trace w) ++ ["No topics"])%list
    /\ topics_json w' = topics_json w
    /\ holds w' [].
Proof.
  intros Hl. rewrite (next_topic_empty w Hl).
  destruct (send_message_spec "No topics" w) as (w' & Hs & Hf & Hr).
  exists w'. repeat split; try assumption.
  apply (holds_file w w'); [now rewrite Hf | assumption].
Qed.

(** On a list, [add_topic] writes the list with the topic at its end. *)
Lemma add_topic_list (t : string) (w : world) (items : list json) :
  fst (get_topics w) = Ok (JArr items) ->
  add_topic t w =
    (Ok tt, {| topics_json := Some (json_dump (JArr (items ++ [JStr t])));
               net := net w; trace := trace w |}).
Proof.
  intros Hl. unfold add_topic, bind.
  rewrite (surjective_pairing (get_topics w)), Hl, get_topics_pure.
  reflexivity.
Qed.

(** When [get_topics] raises, or returns something that is not a list,
    [add_topic] raises and the world is as it was. *)
Lemma add_topic_faults (t : string) (w : world) :
  (forall e, fst (get_topics w) = Raise e -> add_topic t w = (Raise e, w))
  /\ (forall v, fst (get_topics w) = Ok v ->
        (forall items, v <> JArr items) ->
        add_topic t w = (Raise AttributeError, w)).
Proof.
  split.
  - intros e He. unfold add_topic, bind.
    rewrite (surjective_pairing (get_topics w)), He, get_topics_pure.
    reflexivity.
  - intros v Hv Hnot. unfold add_topic, bind.
    rewrite (surjective_pairing (get_topics w)), Hv, get_topics_pure.
    destruct v; try reflexivity. now destruct (Hnot items).
Qed.

(** C5.  What [add_topic] writes is what a later [get_topics] reads.  For
    every state of the file from which [get_topics] returns a list [prior]
    (the file may be absent, then [prior] is empty), [add_topic topic]
    raises nothing, and in the world it leaves, and in any world with the
    same file, [get_topics] returns [prior] followed by [topic], provided
    the decoder reads back that list from the text the encoder wrote for
    it.  For [topic = foo] on an absent file, that is the list of [foo]
    alone. *)
Theorem add_then_reload (topic : string) (prior : list json) (w : world) :
  fst (get_topics w) = Ok (JArr prior) ->
  json_load (json_dump (JArr (prior ++ [JStr topic])))
    = Some (JArr (prior ++ [JStr topic])) ->
  exists w',
    add_topic topic w = (Ok tt, w')
    /\ forall fresh : world,
         topics_json fresh = topics_json w' ->
         get_topics fresh = (Ok (JArr (prior ++ [JStr topic])), fresh).
Proof.
  intros Hl Hback. rewrite (add_topic_list topic w prior Hl).
  eexists. split; [reflexivity|]. simpl. intros fresh Hf.
  now rewrite (get_topics_present fresh _ Hf), Hback.
Qed.

(** C6.  When the file does not exist, [get_topics] returns the empty list
    and raises nothing, and the file is still absent afterwards. *)
Theorem absent_file_is_empty (w : world) :
  topics_json w = None -> get_topics w = (Ok (JArr []), w).
Proof. exact (get_topics_absent w). Qed.

(** C4, as the code has it.  When the file exists, [get_topics] raises
    exactly when [json.load] does: the [JSONDecodeError] is not caught (the
    handler is for [FileNotFoundError] only).  Whatever value the text
    decodes to is returned as it is, a list of strings or not. *)
Theorem existing_file_is_decoded (w : world) (text : string) :
  topics_json w = Some text ->
  (json_load text = None -> get_topics w = (Raise JSONDecodeError, w))
  /\ (forall v, json_load text = Some v -> get_topics w = (Ok v, w)).
Proof.
  intros Hf. rewrite (get_topics_present w text Hf).
  split; [intros -> | intros v ->]; reflexivity.
Qed.

End QueueFacts.

(** ** The dispatcher, branch by branch *)

Section DispatcherFacts.

Context `{Collaborators}.

Local Open Scope py_scope.

Variables (room : MatrixRoom) (event : RoomMessageText).
Hypothesis in_dev : display_name room = "dev".

Lemma cb_topic (rest : string) :
  PyStr.strip (body event) = "#topic" ++ rest ->
  cb_print_messages room event =
    (print (echo_line room event) ;;
     print (PyStr.slice_from 1 rest) ;;
     add_topic (PyStr.slice_from 1 rest) ;;
     send_message ("Added topic '" ++ PyStr.slice_from 1 rest ++ "'")).
Proof.
  intros Hm. unfold cb_print_messages.
  rewrite (proj2 (String.eqb_eq _ _) in_dev), Hm. reflexivity.
Qed.

Lemma cb_help (rest : string) :
  PyStr.strip (body event) = "#help" ++ rest ->
  cb_print_messages room event =
    (print (echo_line room event) ;; send_message help_text).
Proof.
  intros Hm. unfold cb_print_messages.
  rewrite (proj2 (String.eqb_eq _ _) in_dev), Hm. reflexivity.
Qed.

Lemma cb_list (rest : string) :
  PyStr.strip (body event) = "#list" ++ rest ->
  cb_print_messages room event =
    (print (echo_line room event) ;;
     topics <- get_topics ;;
     items <- lift (py_iter topics) ;;
     send_message (list_text 1 items "")).
Proof.
  intros Hm. unfold cb_print_messages.
  rewrite (proj2 (String.eqb_eq _ _) in_dev), Hm. reflexivity.
Qed.

Lemma cb_start (rest : string) :
  PyStr.strip (body event) = "#start" ++ rest ->
  cb_print_messages room event =
    (print (echo_line room event) ;;
     send_message "Meeting started." ;;
     next_topic).
Proof.
  intros Hm. unfold cb_print_messages.
  rewrite (proj2 (String.eqb_eq _ _) in_dev), Hm. reflexivity.
Qed.

Lemma cb_next (rest : string) :
  PyStr.strip (body event) = "#next" ++ rest ->
  cb_print_messages room event =
    (print (echo_line room event) ;; next_topic).
Proof.
  intros Hm. unfold cb_print_messages.
  rewrite (proj2 (String.eqb_eq _ _) in_dev), Hm. reflexivity.
Qed.

Lemma cb_clear (rest : string) :
  PyStr.strip (body event) = "#clear" ++ rest ->
  cb_print_messages room event =
    (print (echo_line room event) ;;
     write_topics (JArr []) ;;
     send_message "Topics cleared.").
Proof.
  intros Hm. unfold cb_print_messages.
  rewrite (proj2 (String.eqb_eq _ _) in_dev), Hm. reflexivity.
Qed.

Lemma cb_end (rest : string) :
  PyStr.strip (body event) = "#end" ++ rest ->
  cb_print_messages room event =
    (print (echo_line room event) ;; send_message "Meeting stopped.").
Proof.
  intros Hm. unfold cb_print_messages.
  rewrite (proj2 (String.eqb_eq _ _) in_dev), Hm. reflexivity.
Qed.

End DispatcherFacts.

(** ** Runs that differ by the network only *)

Section Simulation.

Variables E1 E2 : Collaborators.

Hypothesis same_load : @json_load E1 = @json_load E2.
Hypothesis same_dump : @json_dump E1 = @json_dump E2.
Hypothesis same_str : @py_str E1 = @py_str E2.

Local Open Scope py_scope.

Lemma simulates_ret {A} (a : A) : simulates (@ret E1 A a) (@ret E2 A a).
Proof.
  intros w1 w2 Hf. repeat split; try assumption.
  exists [], []. now rewrite !app_nil_r.
Qed.

Lemma simulates_lift {A} (r : result A) :
  simulates (@lift E1 A r) (@lift E2 A r).
Proof.
  intros w1 w2 Hf. repeat split; try assumption.
  exists [], []. now rewrite !app_nil_r.
Qed.

Lemma simulates_bind {A B} (c1 : @M E1 A) (c2 : @M E2 A)
    (k1 : A -> @M E1 B) (k2 : A -> @M E2 B) :
  simulates c1 c2 -> (forall a, simulates (k1 a) (k2 a)) ->
  simulates (bind c1 k1) (bind c2 k2).
Proof.
  intros Hc Hk w1 w2 Hf. unfold bind.
  destruct (Hc w1 w2 Hf) as (Hr & Hf' & evs1 & evs2 & Ht1 & Ht2 & Hrep).
  destruct (c1 w1) as [r1 w1'], (c2 w2) as [r2 w2']. simpl in *. subst r2.
  destruct r1 as [a|e].
  - destruct (Hk a w1' w2' Hf')
      as (Hr' & Hf'' & evs1' & evs2' & Ht1' & Ht2' & Hrep').
    repeat split; try assumption.
    exists (evs1 ++ evs1')%list, (evs2 ++ evs2')%list.
    rewrite Ht1', Ht2', Ht1, Ht2, <- !app_assoc, !replies_app, Hrep, Hrep'.
    now repeat split.
  - repeat split; try assumption. now exists evs1, evs2.
Qed.

Lemma simulates_try_except {A} (b1 : @M E1 A) (b2 : @M E2 A)
    (class : exn -> bool) (h1 : exn -> @M E1 A) (h2 : exn -> @M E2 A) :
  simulates b1 b2 -> (forall e, simulates (h1 e) (h2 e)) ->
  simulates (try_except b1 class h1) (try_except b2 class h2).
Proof.
  intros Hb Hh w1 w2 Hf. unfold try_except.
  destruct (Hb w1 w2 Hf) as (Hr & Hf' & evs1 & evs2 & Ht1 & Ht2 & Hrep).
  destruct (b1 w1) as [r1 w1'], (b2 w2) as [r2 w2']. simpl in *. subst r2.
  destruct r1 as [a|e].
  - repeat split; try assumption. now exists evs1, evs2.
  - destruct (class e).
    + destruct (Hh e w1' w2' Hf')
        as (Hr' & Hf'' & evs1' & evs2' & Ht1' & Ht2' & Hrep').
      repeat split; try assumption.
      exists (evs1 ++ evs1')%list, (evs2 ++ evs2')%list.
      rewrite Ht1', Ht2', Ht1, Ht2, <- !app_assoc, !replies_app, Hrep, Hrep'.
      now repeat split.
    + repeat split; try assumption. now exists evs1, evs2.
Qed.

(** Whatever is printed. *)
Lemma simulates_print (a b : string) : simulates (@print E1 a) (@print E2 b).
Proof.
  intros w1 w2 Hf. repeat split; try assumption.
  now exists [Stdout a], [Stdout b].
Qed.

(** Whatever [room_send] does on either side. *)
Lemma simulates_send_message (m : string) :
  simulates (@send_message E1 m) (@send_message E2 m).
Proof.
  intros w1 w2 Hf.
  destruct (@send_message_cases E1 m w1) as [(n1 & _ & ->)|(e1 & n1 & _ & ->)];
  destruct (@send_message_cases E2 m w2) as [(n2 & _ & ->)|(e2 & n2 & _ & ->)];
    (repeat split; try assumption); do 2 eexists;
    (split; [reflexivity|]); (split; [reflexivity|]); reflexivity.
Qed.

Lemma simulates_get_topics : simulates (@get_topics E1) (@get_topics E2).
Proof.
  intros w1 w2 Hf.
  assert (Hrun : fst (get_topics w1) = fst (get_topics w2)).
  { destruct (topics_json w2) as [text|] eqn:Hf2.
    - rewrite (get_topics_present w1 text Hf), (get_topics_present w2 text Hf2).
      now rewrite same_load.
    - now rewrite (get_topics_absent w1 Hf), (get_topics_absent w2 Hf2). }
  split; [assumption|]. rewrite !get_topics_pure. split; [assumption|].
  exists [], []. now rewrite !app_nil_r.
Qed.

Lemma simulates_write_topics (v : json) :
  simulates (@write_topics E1 v) (@write_topics E2 v).
Proof.
  intros w1 w2 Hf. unfold write_topics, open_write. simpl.
  rewrite same_dump. repeat split.
  exists [], []. now rewrite !app_nil_r.
Qed.

Lemma simulates_add_topic (t : string) :
  simulates (@add_topic E1 t) (@add_topic E2 t).
Proof.
  unfold add_topic.
  apply simulates_bind; [apply simulates_get_topics | intros topics].
  apply simulates_bind; [apply simulates_lift | intros topics'].
  apply simulates_write_topics.
Qed.

Lemma simulates_next_topic : simulates (@next_topic E1) (@next_topic E2).
Proof.
  unfold next_topic.
  apply simulates_bind; [apply simulates_get_topics | intros topics].
  apply simulates_bind.
  - apply simulates_try_except.
    + apply simulates_bind; [apply simulates_lift | intros p].
      apply simulates_ret.
    + intros e. apply simulates_bind; [apply simulates_send_message|].
      intros _. apply simulates_ret.
  - intros [[current others]|]; [|apply simulates_ret].
    apply simulates_bind; [|intros _; apply simulates_write_topics].
    unfold fmt. rewrite same_str. apply simulates_send_message.
Qed.

Lemma list_text_same (i : nat) (items : list json) (acc : string) :
  @list_text E1 i items acc = @list_text E2 i items acc.
Proof.
  revert i acc. induction items as [|x items IH]; intros i acc; simpl.
  - reflexivity.
  - unfold fmt. rewrite same_str. apply IH.
Qed.

Lemma simulates_cb (room : MatrixRoom) (event1 event2 : RoomMessageText) :
  PyStr.strip (body event1) = PyStr.strip (body event2) ->
  simulates (@cb_print_messages E1 room event1)
            (@cb_print_messages E2 room event2).
Proof.
  intros Hb. unfold cb_print_messages. rewrite Hb.
  destruct (negb (display_name room =? "dev")); [apply simulates_ret|].
  apply simulates_bind.
  { destruct (PyStr.startswith _ "#");
      [apply simulates_print | apply simulates_ret]. }
  intros _.
  repeat match goal with
  | |- simulates (if ?b then _ else _) _ => destruct b
  end.
  - apply simulates_bind; [apply simulates_print | intros _].
    apply simulates_bind; [apply simulates_add_topic | intros _].
    apply simulates_send_message.
  - apply simulates_send_message.
  - apply simulates_bind; [apply simulates_get_topics | intros topics].
    apply simulates_bind; [apply simulates_lift | intros items].
    rewrite list_text_same. apply simulates_send_message.
  - apply simulates_bind; [apply simulates_send_message | intros _].
    apply simulates_next_topic.
  - apply simulates_next_topic.
  - apply simulates_bind; [apply simulates_write_topics | intros _].
    apply simulates_send_message.
  - apply simulates_send_message.
  - apply simulates_ret.
Qed.

End Simulation.

(** ** Runs on a store that holds topics *)

Section RunFacts.

Context `{Collaborators}.

Local Open Scope py_scope.

Lemma runs_to_bind (c : M unit) (k : unit -> M unit) (w : world)
    (l1 l2 : list string) (said1 said2 : list string) :
  runs_to c w l1 said1 ->
  (forall w1, holds w1 l1 -> runs_to (k tt) w1 l2 said2) ->
  runs_to (bind c k) w l2 (said1 ++ said2).
Proof.
  intros (w1 & Hc & Hh1 & Hr1) Hk.
  destruct (Hk w1 Hh1) as (w2 & Hk2 & Hh2 & Hr2).
  exists w2. unfold bind. rewrite Hc. repeat split; try assumption.
  now rewrite Hr2, Hr1, <- app_assoc.
Qed.

Lemma runs_to_ret (w : world) (l : list string) :
  holds w l -> runs_to (ret tt) w l [].
Proof. intros Hl. exists w. rewrite app_nil_r. now repeat split. Qed.

Lemma runs_to_print (line : string) (w : world) (l : list string) :
  holds w l -> runs_to (print line) w l [].
Proof.
  intros Hl. eexists. split; [reflexivity|]. split.
  - now apply (holds_file w).
  - simpl. now rewrite replies_app.
Qed.

Lemma runs_to_send_message (m : string) (w : world) (l : list string) :
  holds w l -> runs_to (send_message m) w l [m].
Proof.
  intros Hl. destruct (send_message_spec m w) as (w' & Hs & Hf & Hr).
  exists w'. repeat split; try assumption.
  apply (holds_file w); [now rewrite Hf | assumption].
Qed.

Lemma runs_to_add_topic (t : string) (w : world) (l : list string) :
  dump_then_load -> holds w l -> runs_to (add_topic t) w (l ++ [t]) [].
Proof.
  intros Hlaw Hl. eexists. split; [apply (add_topic_holds t w l Hl)|].
  split; [now apply holds_written|]. simpl. now rewrite app_nil_r.
Qed.

Lemma runs_to_clear (w : world) :
  dump_then_load -> runs_to (write_topics (JArr [])) w [] [].
Proof.
  intros Hlaw. eexists. split; [reflexivity|].
  split; [now apply holds_written|]. simpl. now rewrite app_nil_r.
Qed.

Lemma runs_to_next_topic_first (t : string) (w : world) (l : list string) :
  dump_then_load ->
  holds w (t :: l) -> runs_to next_topic w l ["Current topic is: " ++ t].
Proof.
  intros Hlaw Hl.
  destruct (next_topic_first w t l Hl) as (w1 & Hs & Hn).
  destruct (send_message_spec ("Current topic is: " ++ t) w)
    as (w1' & Hs' & _ & Hr).
  rewrite Hs in Hs'. injection Hs' as <-.
  eexists. split; [exact Hn|]. split; [now apply holds_written | exact Hr].
Qed.

Lemma runs_to_next_topic_empty (w : world) :
  holds w [] -> runs_to next_topic w [] ["No topics"].
Proof.
  intros Hl. rewrite <- (app_nil_l ["No topics"]).
  unfold runs_to. rewrite (next_topic_empty w Hl).
  now apply runs_to_send_message.
Qed.

Lemma runs_to_list (w : world) (l : list string) :
  holds w l ->
  runs_to (topics <- get_topics ;;
           items <- lift (py_iter topics) ;;
           send_message (list_text 1 items ""))
    w l [list_text 1 (map JStr l) ""].
Proof.
  intros Hl. unfold runs_to, bind at 1.
  rewrite (get_topics_holds w l Hl). unfold bind, lift. simpl.
  now apply runs_to_send_message.
Qed.

End RunFacts.

(** ** The dispatcher *)

Section DispatcherClaims.

Context `{E : Collaborators}.

Local Open Scope py_scope.

(** C8.  A message from a room whose display name is not [dev] is dropped
    whatever its body, a command or not: the callback raises nothing and
    the world is the same afterwards, with the same file, nothing handed to
    [room_send] and nothing printed. *)
Theorem other_room_is_ignored (room : MatrixRoom) (event : RoomMessageText)
    (w : world) :
  display_name room <> "dev" ->
  cb_print_messages room event w = (Ok tt, w).
Proof.
  intros Hroom. unfold cb_print_messages.
  destruct (String.eqb_spec (display_name room) "dev") as [Heq|_];
    [contradiction | reflexivity].
Qed.

(** C10.  In the [dev] room, a message whose stripped body starts with the
    six characters of [#topic], a space after them or not, takes the
    [#topic] branch with the stripped body from index 7 on as the topic:
    the callback prints the message and the topic, calls [add_topic] on
    the topic and sends [Added topic '<topic>'].  On a store from which
    [get_topics] returns the list [prior], it raises nothing, writes
    [prior] followed by that topic, and hands that one reply to
    [room_send].  For the bare [#topic] the topic added is the empty
    string, and for [#topicXY] it is [Y]. *)
Theorem topic_prefix_needs_no_space (room : MatrixRoom)
    (event : RoomMessageText) (prior : list json) (w : world) :
  display_name room = "dev" ->
  fst (get_topics w) = Ok (JArr prior) ->
  let added (topic : string) :=
    cb_print_messages room event =
      (print (echo_line room event) ;;
       print topic ;;
       add_topic topic ;;
       send_message ("Added topic '" ++ topic ++ "'"))
    /\ exists w',
         cb_print_messages room event w = (Ok tt, w')
         /\ topics_json w' = Some (json_dump (JArr (prior ++ [JStr topic])))
         /\ replies (trace w') =
              (replies (trace w)
               ++ [("Added topic '" ++ topic ++ "'")%string])%list in
  (PyStr.startswith (PyStr.strip (body event)) "#topic" = true ->
   added (PyStr.slice_from 7 (PyStr.strip (body event))))
  /\ (PyStr.strip (body event) = "#topic" -> added "")
  /\ (PyStr.strip (body event) = "#topicXY" -> added "Y").
Proof.
  intros Hroom Hl added.
  assert (Hgen : forall rest, PyStr.strip (body event) = "#topic" ++ rest ->
                 added (PyStr.slice_from 1 rest)).
  { intros rest Hm. unfold added.
    rewrite (cb_topic room event Hroom rest Hm). split; [reflexivity|].
    unfold bind, print, emit.
    set (t := PyStr.slice_from 1 rest).
    set (w1 := {| topics_json := topics_json w; net := net w;
                  trace := (trace w ++ [Stdout (echo_line room event)])
                           ++ [Stdout t] |}).
    assert (Hl1 : fst (get_topics w1) = Ok (JArr prior)).
    { destruct (simulates_get_topics E E eq_refl w1 w eq_refl) as [-> _].
      exact Hl. }
    change (add_topic t _) with (add_topic t w1).
    rewrite (add_topic_list t w1 prior Hl1).
    set (w2 := {| topics_json := _ |}).
    destruct (send_message_spec ("Added topic '" ++ t ++ "'") w2)
      as (w' & Hs & Hf & Hr).
    exists w'. split; [exact Hs|]. split; [now rewrite Hf|].
    rewrite Hr. simpl. now rewrite !replies_app, !app_nil_r. }
  split; [|split].
  - intros Hp. apply startswith_iff in Hp. destruct Hp as [rest Hm].
    rewrite Hm at 1. exact (Hgen rest Hm).
  - intros Hm. exact (Hgen "" Hm).
  - intros Hm. exact (Hgen "XY" Hm).
Qed.

(** C9.  A fault of [room_send] stops at [send_message].  When
    [room_send] raises, [send_message] still returns, having printed the
    traceback and left the file alone; so [send_message] never raises.
    And the callback, for every room, message and world, ends as it ends
    with a [room_send] that always returns: with the same outcome (it
    returns, or it raises the same exception, which then comes from the
    store), the same file, and the same bodies handed to [room_send]. *)
Theorem send_faults_are_contained (room : MatrixRoom)
    (event : RoomMessageText) (m : string) (w : world) :
  (forall e n, room_send ROOM_ID m (net w) = (Raise e, n) ->
     send_message m w =
       (Ok tt, {| topics_json := topics_json w; net := n;
                  trace := trace w ++ [SendFailed m;
                             Stdout ("Exception:" ++ format_exc e)] |}))
  /\ (exists w', send_message m w = (Ok tt, w')
        /\ topics_json w' = topics_json w)
  /\ same_run w (cb_print_messages room event w)
       (@on_net E (reliable E) tt w)
       (@cb_print_messages (reliable E) room event
          (@on_net E (reliable E) tt w)).
Proof.
  split; [|split].
  - intros e n Hsend.
    destruct (send_message_cases m w) as [(n' & Hs & _)|(e' & n' & Hs & Hr)];
      rewrite Hsend in Hs; [discriminate|].
    injection Hs as <- <-. exact Hr.
  - destruct (send_message_spec m w) as (w' & Hs & Hf & _). now exists w'.
  - now apply (simulates_cb E (reliable E)).
Qed.

(** C7.  In the [dev] room, handling [#start] is printing the message,
    sending [Meeting started.] and then running [next_topic], and handling
    [#next] is printing the message and running [next_topic].  From one
    world both end with the same outcome and the same file, and [#start]
    hands [room_send] the body [Meeting started.] followed by the bodies
    [#next] hands it.  Neither reads anything but the file: from two
    worlds with the same file, whatever happened before, each command
    ends the same way. *)
Theorem start_is_next_after_a_reply (room : MatrixRoom)
    (start next : RoomMessageText) (w : world) :
  display_name room = "dev" ->
  PyStr.startswith (PyStr.strip (body start)) "#start" = true ->
  PyStr.startswith (PyStr.strip (body next)) "#next" = true ->
  cb_print_messages room start =
    (print (echo_line room start) ;;
     send_message "Meeting started." ;;
     next_topic)
  /\ cb_print_messages room next =
       (print (echo_line room next) ;; next_topic)
  /\ fst (cb_print_messages room start w) = fst (cb_print_messages room next w)
  /\ topics_json (snd (cb_print_messages room start w)) =
       topics_json (snd (cb_print_messages room next w))
  /\ (exists said,
        replies (trace (snd (cb_print_messages room next w))) =
          (replies (trace w) ++ said)%list
        /\ replies (trace (snd (cb_print_messages room start w))) =
             (replies (trace w) ++ "Meeting started." :: said)%list)
  /\ (forall w2 : world, topics_json w2 = topics_json w ->
        same_run w (cb_print_messages room next w)
                 w2 (cb_print_messages room next w2)
        /\ same_run w (cb_print_messages room start w)
                    w2 (cb_print_messages room start w2)).
Proof.
  intros Hroom Hstart Hnext.
  apply startswith_iff in Hstart, Hnext.
  destruct Hstart as [rs Hs], Hnext as [rn Hn].
  pose proof (cb_start room start Hroom rs Hs) as Estart.
  pose proof (cb_next room next Hroom rn Hn) as Enext.
  split; [exact Estart|]. split; [exact Enext|].
  assert (Hsim : forall w2 : world, topics_json w2 = topics_json w ->
            same_run w (cb_print_messages room next w)
                     w2 (cb_print_messages room next w2)
            /\ same_run w (cb_print_messages room start w)
                        w2 (cb_print_messages room start w2)).
  { intros w2 Hf.
    split; apply (simulates_cb E E); try reflexivity; now rewrite Hf. }
  cut (fst (cb_print_messages room start w)
         = fst (cb_print_messages room next w)
       /\ topics_json (snd (cb_print_messages room start w)) =
            topics_json (snd (cb_print_messages room next w))
       /\ exists said,
            replies (trace (snd (cb_print_messages room next w))) =
              (replies (trace w) ++ said)%list
            /\ replies (trace (snd (cb_print_messages room start w))) =
                 (replies (trace w) ++ "Meeting started." :: said)%list).
  { intros (H1 & H2 & H3). repeat split; try assumption; now apply Hsim. }
  rewrite Estart, Enext. unfold bind, print, emit.
  set (wn := {| topics_json := topics_json w; net := net w;
                trace := trace w ++ [Stdout (echo_line room next)] |}).
  set (ws := {| topics_json := topics_json w; net := net w;
                trace := trace w ++ [Stdout (echo_line room start)] |}).
  destruct (send_message_spec "Meeting started." ws) as (ws' & -> & Hf & Hr).
  destruct (simulates_next_topic E E eq_refl eq_refl eq_refl ws' wn)
    as (Hout & Hfile & evs & evn & Hts & Htn & Hrep).
  { now rewrite Hf. }
  split; [exact Hout|]. split; [exact Hfile|].
  exists (replies evn).
  rewrite Hts, Htn, !replies_app, Hr, Hrep. subst wn ws. simpl.
  rewrite !replies_app. simpl. rewrite !app_nil_r, <- app_assoc.
  split; reflexivity.
Qed.

End DispatcherClaims.

Section Scenario.

Context `{E : Collaborators}.

Hypothesis law : dump_then_load.

Variable room : MatrixRoom.
Hypothesis in_dev : display_name room = "dev".

Local Open Scope py_scope.

(** One step of the dispatcher on a store that holds topics. *)

Lemma step_topic (event : RoomMessageText) (t : string) (w : world)
    (l : list string) :
  PyStr.strip (body event) = "#topic " ++ t ->
  holds w l ->
  runs_to (cb_print_messages room event) w (l ++ [t])
    ["Added topic '" ++ t ++ "'"].
Proof.
  intros Hm Hl. rewrite (cb_topic room event in_dev (" " ++ t) Hm).
  change (PyStr.slice_from 1 (" " ++ t)) with t.
  change ["Added topic '" ++ t ++ "'"]
    with ([] ++ [] ++ [] ++ [("Added topic '" ++ t ++ "'")%string])%list.
  apply (runs_to_bind _ _ w l); [now apply runs_to_print | intros w1 H1].
  apply (runs_to_bind _ _ w1 l); [now apply runs_to_print | intros w2 H2].
  apply (runs_to_bind _ _ w2 (l ++ [t]));
    [now apply runs_to_add_topic | intros w3 H3].
  now apply runs_to_send_message.
Qed.

Lemma step_list (event : RoomMessageText) (w : world) (l : list string) :
  PyStr.strip (body event) = "#list" ->
  holds w l ->
  runs_to (cb_print_messages room event) w l [list_text 1 (map JStr l) ""].
Proof.
  intros Hm Hl. rewrite (cb_list room event in_dev "" Hm).
  change [list_text 1 (map JStr l) ""]
    with ([] ++ [list_text 1 (map JStr l) ""])%list.
  apply (runs_to_bind _ _ w l); [now apply runs_to_print | intros w1 H1].
  now apply runs_to_list.
Qed.

Lemma step_start (event : RoomMessageText) (t : string) (w : world)
    (l : list string) :
  PyStr.strip (body event) = "#start" ->
  holds w (t :: l) ->
  runs_to (cb_print_messages room event) w l
    ["Meeting started."; "Current topic is: " ++ t].
Proof.
  intros Hm Hl. rewrite (cb_start room event in_dev "" Hm).
  change ["Meeting started."; "Current topic is: " ++ t]
    with ([] ++ ["Meeting started."]
          ++ [("Current topic is: " ++ t)%string])%list.
  apply (runs_to_bind _ _ w (t :: l)); [now apply runs_to_print|].
  intros w1 H1.
  apply (runs_to_bind _ _ w1 (t :: l)); [now apply runs_to_send_message|].
  intros w2 H2. now apply runs_to_next_topic_first.
Qed.

Lemma step_next (event : RoomMessageText) (t : string) (w : world)
    (l : list string) :
  PyStr.strip (body event) = "#next" ->
  holds w (t :: l) ->
  runs_to (cb_print_messages room event) w l ["Current topic is: " ++ t].
Proof.
  intros Hm Hl. rewrite (cb_next room event in_dev "" Hm).
  change ["Current topic is: " ++ t]
    with ([] ++ [("Current topic is: " ++ t)%string])%list.
  apply (runs_to_bind _ _ w (t :: l)); [now apply runs_to_print|].
  intros w1 H1. now apply runs_to_next_topic_first.
Qed.

Lemma step_next_empty (event : RoomMessageText) (w : world) :
  PyStr.strip (body event) = "#next" ->
  holds w [] ->
  runs_to (cb_print_messages room event) w [] ["No topics"].
Proof.
  intros Hm Hl. rewrite (cb_next room event in_dev "" Hm).
  change ["No topics"] with ([] ++ ["No topics"])%list.
  apply (runs_to_bind _ _ w []); [now apply runs_to_print|].
  intros w1 H1. now apply runs_to_next_topic_empty.
Qed.

Lemma step_clear (event : RoomMessageText) (w : world) (l : list string) :
  PyStr.strip (body event) = "#clear" ->
  holds w l ->
  runs_to (cb_print_messages room event) w [] ["Topics cleared."].
Proof.
  intros Hm Hl. rewrite (cb_clear room event in_dev "" Hm).
  change ["Topics cleared."] with ([] ++ [] ++ ["Topics cleared."])%list.
  apply (runs_to_bind _ _ w l); [now apply runs_to_print | intros w1 H1].
  apply (runs_to_bind _ _ w1 []); [now apply runs_to_clear | intros w2 H2].
  now apply runs_to_send_message.
Qed.

End Scenario.

(** C2.  The topic cycle.  In the [dev] room, on an empty store, the seven
    messages [#topic A], [#topic B], [#list], [#start], [#next], [#clear],
    [#next] are handled without an exception, and the bodies handed to
    [room_send] are, in this order and with no other: [Added topic 'A'],
    [Added topic 'B'], the two lines [1. A] and [2. B] each ended by a
    newline, [Meeting started.], [Current topic is: A],
    [Current topic is: B], [Topics cleared.], [No topics].  The store is
    empty at the end.  The decoder is only asked to read back what the
    encoder wrote. *)
Theorem topic_cycle `{E : Collaborators} (room : MatrixRoom)
    (events : list RoomMessageText) (w : world) :
  dump_then_load ->
  display_name room = "dev" ->
  map body events =
    ["#topic A"; "#topic B"; "#list"; "#start"; "#next"; "#clear"; "#next"] ->
  holds w [] ->
  runs_to (deliver room events) w []
    ["Added topic 'A'"; "Added topic 'B'";
     "1. A" ++ nl ++ "2. B" ++ nl;
     "Meeting started."; "Current topic is: A";
     "Current topic is: B"; "Topics cleared."; "No topics"].
Proof.
  intros law in_dev Hbodies Hl.
  destruct events as [|e1 [|e2 [|e3 [|e4 [|e5 [|e6 [|e7 [|e8 events]]]]]]]];
    try discriminate Hbodies.
  injection Hbodies as B1 B2 B3 B4 B5 B6 B7.
  assert (S1 : PyStr.strip (body e1) = "#topic " ++ "A") by now rewrite B1.
  assert (S2 : PyStr.strip (body e2) = "#topic " ++ "B") by now rewrite B2.
  assert (S3 : PyStr.strip (body e3) = "#list") by now rewrite B3.
  assert (S4 : PyStr.strip (body e4) = "#start") by now rewrite B4.
  assert (S5 : PyStr.strip (body e5) = "#next") by now rewrite B5.
  assert (S6 : PyStr.strip (body e6) = "#clear") by now rewrite B6.
  assert (S7 : PyStr.strip (body e7) = "#next") by now rewrite B7.
  unfold deliver.
  apply (runs_to_bind _ _ w ["A"] [] ["Added topic 'A'"] _);
    [exact (step_topic law room in_dev e1 "A" w [] S1 Hl) | intros w1 H1].
  apply (runs_to_bind _ _ w1 ["A"; "B"] [] ["Added topic 'B'"] _);
    [exact (step_topic law room in_dev e2 "B" w1 ["A"] S2 H1) | intros w2 H2].
  apply (runs_to_bind _ _ w2 ["A"; "B"] [] ["1. A" ++ nl ++ "2. B" ++ nl] _);
    [exact (step_list room in_dev e3 w2 ["A"; "B"] S3 H2) | intros w3 H3].
  apply (runs_to_bind _ _ w3 ["B"] []
           ["Meeting started."; "Current topic is: A"] _);
    [exact (step_start law room in_dev e4 "A" w3 ["B"] S4 H3) | intros w4 H4].
  apply (runs_to_bind _ _ w4 [] [] ["Current topic is: B"] _);
    [exact (step_next law room in_dev e5 "B" w4 [] S5 H4) | intros w5 H5].
  apply (runs_to_bind _ _ w5 [] [] ["Topics cleared."] _);
    [exact (step_clear law room in_dev e6 w5 [] S6 H5) | intros w6 H6].
  apply (runs_to_bind _ _ w6 [] [] ["No topics"] []);
    [exact (step_next_empty room in_dev e7 w6 S7 H6) | intros w7 H7].
  now apply runs_to_ret.
Qed.

(** ** The reference codec reads back the lists of strings it writes *)

Module RefJsonFacts.

Import RefJson.

(** The scanner undoes the replacement of each character. *)
Lemma scan_escape_char (c : ascii) (tail : string) :
  scan_string Plain (escape_char c ++ tail) = push c (scan_string Plain tail).
Proof.
  destruct c as [b0 b1 b2 b3 b4 b5 b6 b7].
  destruct b0, b1, b2, b3, b4, b5, b6, b7; reflexivity.
Qed.

Lemma scan_escape (s tail : string) :
  scan_string Plain (escape s ++ String dquote tail) = Some (s, tail).
Proof.
  induction s as [|c s IH]; simpl.
  - reflexivity.
  - rewrite append_assoc, scan_escape_char, IH. reflexivity.
Qed.

Lemma quote_append (s tail : string) :
  quote s ++ tail = String dquote (escape s ++ String dquote tail).
Proof. unfold quote, str1. simpl. now rewrite append_assoc. Qed.

(** A string literal at the head of a text is read back. *)
Lemma parse_value_quote (fuel : nat) (s tail : string) :
  parse_value (S fuel) (quote s ++ tail) = Some (JStr s, tail).
Proof. rewrite quote_append. simpl. now rewrite scan_escape. Qed.

Lemma dumps_str_list (l : list string) :
  dumps (str_list l) = "[" ++ join_quoted l ++ "]".
Proof.
  unfold str_list. simpl. do 2 f_equal.
  induction l as [|x [|y rest] IH]; simpl; try reflexivity.
  simpl in IH. now rewrite IH.
Qed.

Lemma join_quoted_head (x : string) (rest : list string) (tail : string) :
  exists body, join_quoted (x :: rest) ++ tail = String dquote body.
Proof.
  destruct rest as [|y rest]; simpl; eexists; reflexivity.
Qed.

Lemma parse_items_step (fuel : nat) (s : string) :
  parse_items (S fuel) s =
    match parse_value fuel s with
    | None => None
    | Some (v, r) =>
        match skip_ws r with
        | String "]" rest => Some ([v], rest)
        | String "," r' =>
            match parse_items fuel (skip_ws r') with
            | Some (items, rest) => Some (v :: items, rest)
            | None => None
            end
        | _ => None
        end
    end.
Proof. reflexivity. Qed.

Lemma parse_items_quoted (rest : list string) :
  forall (x : string) (tail : string) (fuel : nat),
    List.length rest < fuel ->
    parse_items (S fuel) (join_quoted (x :: rest) ++ String "]" tail)
    = Some (map JStr (x :: rest), tail).
Proof.
  induction rest as [|y rest IH]; intros x tail fuel Hfuel;
    (destruct fuel as [|fuel]; [inversion Hfuel|]);
    rewrite parse_items_step.
  - change (join_quoted [x]) with (quote x).
    rewrite parse_value_quote. reflexivity.
  - change (join_quoted (x :: y :: rest))
      with (quote x ++ ", " ++ join_quoted (y :: rest)).
    rewrite !append_assoc, parse_value_quote.
    destruct (join_quoted_head y rest (String "]" tail)) as [body Hbody].
    change (", " ++ join_quoted (y :: rest) ++ String "]" tail)
      with (String "," (String " "
              (join_quoted (y :: rest) ++ String "]" tail))).
    rewrite Hbody.
    change (skip_ws (String "," (String " " (String dquote body))))
      with (String "," (String " " (String dquote body))).
    cbv beta iota.
    change (skip_ws (String " " (String dquote body)))
      with (String dquote body).
    rewrite <- Hbody, (IH y tail fuel); [reflexivity|].
    simpl in Hfuel. lia.
Qed.

Lemma length_join_quoted (l : list string) :
  List.length l <= String.length (join_quoted l).
Proof.
  induction l as [|x [|y rest] IH]; simpl; [lia | lia |].
  simpl in IH. rewrite length_append. simpl. lia.
Qed.

(** The reference codec keeps the promise the client relies on. *)
Lemma loads_dumps_str_list (l : list string) :
  loads (dumps (str_list l)) = Some (str_list l).
Proof.
  rewrite dumps_str_list. destruct l as [|x rest]; [reflexivity|].
  unfold loads.
  replace (String.length ("[" ++ join_quoted (x :: rest) ++ "]"))
    with (S (String.length (join_quoted (x :: rest)) + 1))
    by (simpl; now rewrite length_append).
  pose proof (length_join_quoted (x :: rest)) as Hlen. simpl List.length in Hlen.
  remember (String.length (join_quoted (x :: rest)) + 1) as fuel eqn:Hfuel.
  destruct fuel as [|fuel]; [lia|].
  destruct (join_quoted_head x rest (String "]" "")) as [body Hbody].
  change ("[" ++ join_quoted (x :: rest) ++ "]")
    with (String "[" (join_quoted (x :: rest) ++ String "]" "")).
  rewrite Hbody.
  change (skip_ws (String "[" (String dquote body)))
    with (String "[" (String dquote body)).
  change (parse_value (S (S (S fuel))) (String "[" (String dquote body)))
    with (match parse_items (S (S fuel)) (String dquote body) with
          | Some (items, rest) => Some (JArr items, rest)
          | None => None
          end).
  rewrite <- Hbody, (parse_items_quoted rest x "" (S fuel)) by lia.
  reflexivity.
Qed.

Lemma library_law (send : string -> result unit) :
  @dump_then_load (library send).
Proof. intros l. apply loads_dumps_str_list. Qed.

End RefJsonFacts.

(** ** The statements on the reference libraries *)

Section Instances.

Import RefJsonFacts.

Local Open Scope py_scope.

(** Four topics, one of them twice and one empty, from a missing file. *)
Lemma fifo_order_witness :
  @dump_then_load delivering
  /\ holds no_file []
  /\ exists w',
       (add_topics ["budget"; "hiring"; "budget"; ""] ;; next_topics 4) no_file
         = (Ok tt, w')
       /\ replies (trace w') =
            ["Current topic is: budget"; "Current topic is: hiring";
             "Current topic is: budget"; "Current topic is: "]
       /\ holds w' [].
Proof.
  split; [apply library_law|]. split; [reflexivity|].
  apply (@fifo_order delivering ["budget"; "hiring"; "budget"; ""] no_file).
  - apply library_law.
  - reflexivity.
Defined.

(** The cycle from a missing file. *)
Lemma topic_cycle_witness :
  runs_to
    (deliver dev_room
       (map message
          ["#topic A"; "#topic B"; "#list"; "#start"; "#next"; "#clear";
           "#next"]))
    no_file []
    ["Added topic 'A'"; "Added topic 'B'";
     "1. A" ++ nl ++ "2. B" ++ nl;
     "Meeting started."; "Current topic is: A";
     "Current topic is: B"; "Topics cleared."; "No topics"].
Proof.
  apply (@topic_cycle delivering).
  - apply library_law.
  - reflexivity.
  - reflexivity.
  - reflexivity.
Defined.

(** On a file that holds the empty list, the file stays as it is. *)
Lemma next_topic_on_empty_witness :
  holds empty_file []
  /\ exists w',
       next_topic empty_file = (Ok tt, w')
       /\ replies (trace w') = ["No topics"]
       /\ topics_json w' = Some "[]"
       /\ holds w' [].
Proof.
  split; [reflexivity|].
  apply (@next_topic_on_empty delivering empty_file). reflexivity.
Defined.

(** C3, as the claim has it, fails when the file does not exist: after
    [next_topic] has answered [No topics] there is still no file, where the
    claim wants a file that holds the empty list. *)
Lemma next_topic_creates_no_file :
  holds no_file []
  /\ fst (next_topic no_file) = Ok tt
  /\ replies (trace (snd (next_topic no_file))) = ["No topics"]
  /\ topics_json (snd (next_topic no_file)) = None
  /\ ~ present_and_empty (snd (next_topic no_file)).
Proof.
  repeat split. intros (text & Hfile & _). discriminate Hfile.
Qed.

(** A text cut short raises; the list of two numbers is returned. *)
Lemma existing_file_is_decoded_witness :
  get_topics (world_of delivering tt (Some "[1, 2"))
    = (Raise JSONDecodeError, world_of delivering tt (Some "[1, 2"))
  /\ get_topics (world_of delivering tt (Some "[1, 2]"))
     = (Ok (JArr [JNum "1"; JNum "2"]),
        world_of delivering tt (Some "[1, 2]")).
Proof.
  split.
  - apply (proj1 (@existing_file_is_decoded delivering
                    (world_of delivering tt (Some "[1, 2")) "[1, 2" eq_refl)).
    reflexivity.
  - apply (proj2 (@existing_file_is_decoded delivering
                    (world_of delivering tt (Some "[1, 2]")) "[1, 2]" eq_refl)).
    reflexivity.
Defined.

(** C4, as the claim has it, fails on a file that holds an empty JSON
    object: the text is not the encoding of a list of strings, and
    [get_topics] returns the decoded dict without raising. *)
Lemma decoded_dict_is_returned :
  topics_json dict_file = Some "{}"
  /\ ~ @encodes_strings delivering "{}"
  /\ get_topics dict_file = (Ok (JObj []), dict_file).
Proof.
  repeat split. intros (l & Hl). discriminate Hl.
Qed.

(** C5, as the claim has it, fails on that same file: the store loads (to
    a dict), [add_topic] raises [AttributeError] at [append] and writes
    nothing, and a later [get_topics] returns the dict, not a list that
    ends with the topic. *)
Lemma add_topic_on_dict_raises :
  get_topics dict_file = (Ok (JObj []), dict_file)
  /\ add_topic "foo" dict_file = (Raise AttributeError, dict_file)
  /\ forall prior : list json,
       fst (get_topics (snd (add_topic "foo" dict_file)))
       <> Ok (JArr (prior ++ [JStr "foo"])).
Proof.
  repeat split. intros prior Hl. discriminate Hl.
Qed.

(** [foo] added when there is no file. *)
Lemma add_then_reload_witness :
  exists w',
    add_topic "foo" no_file = (Ok tt, w')
    /\ forall fresh : @world delivering,
         topics_json fresh = topics_json w' ->
         get_topics fresh = (Ok (JArr [JStr "foo"]), fresh).
Proof.
  apply (@add_then_reload delivering "foo" [] no_file); reflexivity.
Defined.

(** No file: the empty list. *)
Lemma absent_file_is_empty_witness :
  get_topics no_file = (Ok (JArr []), no_file).
Proof. apply (@absent_file_is_empty delivering no_file). reflexivity. Defined.

(** A command sent in another room. *)
Lemma other_room_is_ignored_witness :
  cb_print_messages other_room (message "#topic Budget") empty_file
    = (Ok tt, empty_file).
Proof.
  apply (@other_room_is_ignored delivering). discriminate.
Defined.

(** Bodies with blanks around, with a letter, with nothing, and with two
    letters after [#topic]. *)
Lemma topic_prefix_needs_no_space_witness :
  let added (event : RoomMessageText) (topic : string) :=
    exists w',
      cb_print_messages dev_room event empty_file = (Ok tt, w')
      /\ topics_json w' = Some (RefJson.dumps (str_list [topic]))
      /\ replies (trace w') = [("Added topic '" ++ topic ++ "'")%string] in
  added (message "  #topic agenda for May ") "agenda for May"
  /\ added (message "#topics") ""
  /\ added (message "#topic") ""
  /\ added (message "#topicXY") "Y".
Proof.
  intros added. repeat split.
  - apply (proj1 (@topic_prefix_needs_no_space delivering dev_room
       (message "  #topic agenda for May ") [] empty_file eq_refl eq_refl)).
    reflexivity.
  - apply (proj1 (@topic_prefix_needs_no_space delivering dev_room
       (message "#topics") [] empty_file eq_refl eq_refl)).
    reflexivity.
  - apply (proj1 (proj2 (@topic_prefix_needs_no_space delivering dev_room
       (message "#topic") [] empty_file eq_refl eq_refl))).
    reflexivity.
  - apply (proj2 (proj2 (@topic_prefix_needs_no_space delivering dev_room
       (message "#topicXY") [] empty_file eq_refl eq_refl))).
    reflexivity.
Defined.

(** A network where every sending fails. *)
Lemma send_faults_are_contained_witness :
  send_message "Meeting started." cut_off =
    (Ok tt,
     @Build_world failing (topics_json cut_off) tt
       [SendFailed "Meeting started.";
        Stdout "Exception:Traceback (most recent call last):"])
  /\ same_run cut_off (cb_print_messages dev_room (message "#next") cut_off)
       (@on_net failing (reliable failing) tt cut_off)
       (@cb_print_messages (reliable failing) dev_room (message "#next")
          (@on_net failing (reliable failing) tt cut_off)).
Proof.
  pose proof (@send_faults_are_contained failing dev_room (message "#next")
                "Meeting started." cut_off) as (Hraise & _ & Hsame).
  split; [|exact Hsame].
  apply (Hraise (OtherException "LocalProtocolError") tt). reflexivity.
Defined.

(** [#start] and [#next] on a store of one topic, every sending failing. *)
Lemma start_is_next_after_a_reply_witness :
  fst (cb_print_messages dev_room (message " #start") cut_off)
    = fst (cb_print_messages dev_room (message "#next") cut_off)
  /\ topics_json (snd (cb_print_messages dev_room (message " #start") cut_off))
     = topics_json (snd (cb_print_messages dev_room (message "#next") cut_off))
  /\ exists said,
       replies (trace (snd (cb_print_messages dev_room (message "#next")
                              cut_off))) = said
       /\ replies (trace (snd (cb_print_messages dev_room (message " #start")
                                 cut_off))) = "Meeting started." :: said.
Proof.
  destruct (@start_is_next_after_a_reply failing dev_room (message " #start")
              (message "#next") cut_off eq_refl eq_refl eq_refl)
    as (_ & _ & Hout & Hfile & (said & Hn & Hs) & _).
  split; [exact Hout|]. split; [exact Hfile|].
  exists said. split; [exact Hn | exact Hs].
Defined.

End Instances.

(** * More of the dispatcher and of the store *)

(** ** Strings *)

Lemma append_nil_r (a : string) : a ++ "" = a.
Proof. induction a as [|x a IH]; simpl; [reflexivity | now rewrite IH]. Qed.

Lemma concat_cons (x : string) (r : list string) :
  String.concat "" (x :: r) = x ++ String.concat "" r.
Proof. destruct r; simpl; [now rewrite append_nil_r | reflexivity]. Qed.

Lemma rstrip_cons (c : ascii) (r : string) :
  PyStr.rstrip (String c r) =
    match PyStr.rstrip r with
    | EmptyString =>
        if PyStr.isspace c then EmptyString else String c EmptyString
    | r' => String c r'
    end.
Proof. reflexivity. Qed.

Lemma rstrip_idempotent (s : string) :
  PyStr.rstrip (PyStr.rstrip s) = PyStr.rstrip s.
Proof.
  induction s as [|c s IH]; [reflexivity|].
  rewrite (rstrip_cons c s).
  destruct (PyStr.rstrip s) as [|d r] eqn:Hr.
  - destruct (PyStr.isspace c) eqn:Hc; [reflexivity|].
    rewrite rstrip_cons. simpl. now rewrite Hc.
  - rewrite rstrip_cons, IH. reflexivity.
Qed.

(** What [lstrip] returns does not start with a blank. *)
Lemma lstrip_head (s : string) :
  PyStr.lstrip s = "" \/
  exists c r, PyStr.lstrip s = String c r /\ PyStr.isspace c = false.
Proof.
  induction s as [|c s IH]; simpl; [now left|].
  destruct (PyStr.isspace c) eqn:Hc; [exact IH|].
  right. now exists c, s.
Qed.

Lemma strip_idempotent (s : string) :
  PyStr.strip (PyStr.strip s) = PyStr.strip s.
Proof.
  unfold PyStr.strip.
  assert (Hl : PyStr.lstrip (PyStr.rstrip (PyStr.lstrip s))
               = PyStr.rstrip (PyStr.lstrip s)).
  { destruct (lstrip_head s) as [->|(c & r & -> & Hc)]; [reflexivity|].
    rewrite rstrip_cons.
    destruct (PyStr.rstrip r); rewrite ?Hc; simpl; now rewrite Hc. }
  rewrite Hl. apply rstrip_idempotent.
Qed.

(** Every command starts with [#]. *)
Lemma no_hash_no_command (m : string) :
  PyStr.startswith m "#" = false -> parse_command m = CmdNone.
Proof.
  destruct m as [|c m]; [reflexivity|].
  unfold parse_command. cbn [PyStr.startswith].
  destruct (Ascii.eqb "#" c); [discriminate | reflexivity].
Qed.

(** ** Commands that leave the store alone *)

Section Frames.

Context `{E : Collaborators}.

Local Open Scope py_scope.

Lemma always_returns_ret : always_returns (ret tt).
Proof. intros w. now exists w. Qed.

Lemma always_returns_print (line : string) : always_returns (print line).
Proof. intros w. eexists. reflexivity. Qed.

Lemma always_returns_send_message (m : string) :
  always_returns (send_message m).
Proof.
  intros w. destruct (send_message_spec m w) as (w' & Hs & _). now exists w'.
Qed.

Lemma always_returns_write_topics (v : json) :
  always_returns (write_topics v).
Proof. intros w. eexists. reflexivity. Qed.

Lemma always_returns_bind (c : M unit) (k : unit -> M unit) :
  always_returns c -> always_returns (k tt) -> always_returns (bind c k).
Proof.
  intros Hc Hk w. destruct (Hc w) as (w1 & H1). destruct (Hk w1) as (w2 & H2).
  exists w2. unfold bind. now rewrite H1.
Qed.

Lemma keeps_file_ret {A} (a : A) : keeps_file (ret a).
Proof. intros w. reflexivity. Qed.

Lemma keeps_file_lift {A} (r : result A) : keeps_file (lift r).
Proof. intros w. reflexivity. Qed.

Lemma keeps_file_print (line : string) : keeps_file (print line).
Proof. intros w. reflexivity. Qed.

Lemma keeps_file_send_message (m : string) : keeps_file (send_message m).
Proof.
  intros w. destruct (send_message_spec m w) as (w' & Hs & Hf & _).
  now rewrite Hs.
Qed.

Lemma keeps_file_get_topics : keeps_file get_topics.
Proof. intros w. now rewrite get_topics_pure. Qed.

Lemma keeps_file_bind {A B} (c : M A) (k : A -> M B) :
  keeps_file c -> (forall a, keeps_file (k a)) -> keeps_file (bind c k).
Proof.
  intros Hc Hk w. unfold bind. specialize (Hc w).
  destruct (c w) as [[a|e] w1]; simpl in *; [|exact Hc].
  now rewrite (Hk a w1).
Qed.

(** A message that does not start with [#] once stripped has no effect at
    all, in any room and whatever the file holds: nothing is printed,
    nothing is sent, nothing is read or written. *)
Theorem plain_text_is_ignored (room : MatrixRoom) (event : RoomMessageText)
    (w : world) :
  PyStr.startswith (PyStr.strip (body event)) "#" = false ->
  cb_print_messages room event w = (Ok tt, w).
Proof.
  intros Hm. unfold cb_print_messages.
  destruct (negb (display_name room =? "dev")); [reflexivity|].
  rewrite Hm.
  destruct (PyStr.strip (body event)) as [|c m]; [reflexivity|].
  cbn [PyStr.startswith] in *.
  destruct (Ascii.eqb "#" c); [discriminate | reflexivity].
Qed.

(** Only [#topic], [#list], [#start] and [#next] read the file: any other
    message is handled without an exception whatever the file holds, also
    a text that does not decode. *)
Theorem only_store_commands_raise (room : MatrixRoom)
    (event : RoomMessageText) :
  PyStr.startswith (PyStr.strip (body event)) "#topic" = false ->
  PyStr.startswith (PyStr.strip (body event)) "#list" = false ->
  PyStr.startswith (PyStr.strip (body event)) "#start" = false ->
  PyStr.startswith (PyStr.strip (body event)) "#next" = false ->
  always_returns (cb_print_messages room event).
Proof.
  intros Ht Hl Hs Hn. unfold cb_print_messages.
  destruct (negb (display_name room =? "dev")); [apply always_returns_ret|].
  rewrite Ht, Hl, Hs, Hn.
  apply always_returns_bind.
  { destruct (PyStr.startswith _ "#");
      [apply always_returns_print | apply always_returns_ret]. }
  repeat match goal with
  | |- always_returns (if ?b then _ else _) => destruct b
  end.
  - apply always_returns_send_message.
  - apply always_returns_bind;
      [apply always_returns_write_topics | apply always_returns_send_message].
  - apply always_returns_send_message.
  - apply always_returns_ret.
Qed.

(** Only [#topic], [#start], [#next] and [#clear] write the file: after
    any other message, handled or raising, the file is as it was. *)
Theorem only_queue_commands_write (room : MatrixRoom)
    (event : RoomMessageText) :
  PyStr.startswith (PyStr.strip (body event)) "#topic" = false ->
  PyStr.startswith (PyStr.strip (body event)) "#start" = false ->
  PyStr.startswith (PyStr.strip (body event)) "#next" = false ->
  PyStr.startswith (PyStr.strip (body event)) "#clear" = false ->
  keeps_file (cb_print_messages room event).
Proof.
  intros Ht Hs Hn Hc. unfold cb_print_messages.
  destruct (negb (display_name room =? "dev")); [apply keeps_file_ret|].
  rewrite Ht, Hs, Hn, Hc.
  apply keeps_file_bind.
  { destruct (PyStr.startswith _ "#");
      [apply keeps_file_print | apply keeps_file_ret]. }
  intros _.
  repeat match goal with
  | |- keeps_file (if ?b then _ else _) => destruct b
  end.
  - apply keeps_file_send_message.
  - apply keeps_file_bind; [apply keeps_file_get_topics | intros topics].
    apply keeps_file_bind; [apply keeps_file_lift | intros items].
    apply keeps_file_send_message.
  - apply keeps_file_send_message.
  - apply keeps_file_ret.
Qed.

Variable room : MatrixRoom.
Hypothesis in_dev : display_name room = "dev".

(** [#help] and [#end] answer with their fixed text whatever the file
    holds, and leave it as it is. *)
Theorem help_and_end_are_fixed (event : RoomMessageText) (w : world) :
  let answers (text : string) :=
    exists w',
      cb_print_messages room event w = (Ok tt, w')
      /\ topics_json w' = topics_json w
      /\ replies (trace w') = (replies (trace w) ++ [text])%list in
  (PyStr.startswith (PyStr.strip (body event)) "#help" = true ->
   answers help_text)
  /\ (PyStr.startswith (PyStr.strip (body event)) "#end" = true ->
      answers "Meeting stopped.").
Proof.
  intros answers.
  assert (Hgen : forall text,
            cb_print_messages room event =
              (print (echo_line room event) ;; send_message text) ->
            answers text).
  { intros text Hcb. unfold answers. rewrite Hcb. unfold bind, print, emit.
    set (w1 := {| topics_json := topics_json w |}).
    destruct (send_message_spec text w1) as (w' & Hs & Hf & Hr).
    exists w'. split; [exact Hs|]. split; [exact Hf|].
    rewrite Hr. subst w1. simpl. now rewrite replies_app, app_nil_r. }
  split; intros Hm; apply startswith_iff in Hm; destruct Hm as [rest Hm].
  - apply Hgen. exact (cb_help room event in_dev rest Hm).
  - apply Hgen. exact (cb_end room event in_dev rest Hm).
Qed.

(** [#clear] never reads the file: whatever it holds, also a text that
    does not decode, or when it is missing, the callback raises nothing,
    writes the encoding of the empty list and answers [Topics cleared.].
    So a second [#clear] writes the same file again. *)
Theorem clear_resets_any_file (event : RoomMessageText) (w : world) :
  PyStr.startswith (PyStr.strip (body event)) "#clear" = true ->
  exists w',
    cb_print_messages room event w = (Ok tt, w')
    /\ topics_json w' = Some (json_dump (JArr []))
    /\ replies (trace w') = (replies (trace w) ++ ["Topics cleared."])%list.
Proof.
  intros Hm. apply startswith_iff in Hm. destruct Hm as [rest Hm].
  rewrite (cb_clear room event in_dev rest Hm).
  unfold bind, print, emit, write_topics, open_write.
  set (w1 := {| topics_json := Some _ |}).
  destruct (send_message_spec "Topics cleared." w1) as (w' & Hs & Hf & Hr).
  exists w'. split; [exact Hs|]. split; [exact Hf|].
  rewrite Hr. subst w1. simpl. now rewrite replies_app, app_nil_r.
Qed.

End Frames.

(** ** A file that cannot be read *)

Section StorageFaults.

Context `{E : Collaborators}.

Local Open Scope py_scope.

(** What [get_topics] returns depends on the file only. *)
Lemma get_topics_file (w w' : world) :
  topics_json w' = topics_json w -> fst (get_topics w') = fst (get_topics w).
Proof.
  intros Hf.
  destruct (simulates_get_topics E E eq_refl w' w Hf) as [Hr _]. exact Hr.
Qed.

Lemma next_topic_faults (w : world) (e : exn) :
  fst (get_topics w) = Raise e -> next_topic w = (Raise e, w).
Proof.
  intros He. unfold next_topic, bind.
  rewrite (surjective_pairing (get_topics w)), He, get_topics_pure.
  reflexivity.
Qed.

Variable room : MatrixRoom.
Hypothesis in_dev : display_name room = "dev".

(** When [get_topics] raises (the file holds a text that does not decode),
    [#topic], [#list] and [#next] raise the same exception, send no reply
    and leave the file as it is; [#start] has sent [Meeting started.]
    before it raises. *)
Theorem unreadable_file_stops_the_command (event : RoomMessageText)
    (w : world) (e : exn) :
  fst (get_topics w) = Raise e ->
  let stops (said : list string) :=
    fst (cb_print_messages room event w) = Raise e
    /\ topics_json (snd (cb_print_messages room event w)) = topics_json w
    /\ replies (trace (snd (cb_print_messages room event w))) =
         (replies (trace w) ++ said)%list in
  (PyStr.startswith (PyStr.strip (body event)) "#topic" = true -> stops [])
  /\ (PyStr.startswith (PyStr.strip (body event)) "#list" = true -> stops [])
  /\ (PyStr.startswith (PyStr.strip (body event)) "#next" = true -> stops [])
  /\ (PyStr.startswith (PyStr.strip (body event)) "#start" = true ->
      stops ["Meeting started."]).
Proof.
  intros He stops.
  assert (Hany : forall w1 : world, topics_json w1 = topics_json w ->
                 fst (get_topics w1) = Raise e).
  { intros w1 Hf. now rewrite (get_topics_file w w1 Hf). }
  assert (Hfin : forall (w1 : world) (said : list string),
            cb_print_messages room event w = (Raise e, w1) ->
            topics_json w1 = topics_json w ->
            replies (trace w1) = (replies (trace w) ++ said)%list ->
            stops said).
  { intros w1 said Hrun Hf Hr. unfold stops. rewrite Hrun. now repeat split. }
  split; [|split; [|split]]; intros Hm; apply startswith_iff in Hm;
    destruct Hm as [rest Hm].
  - eapply Hfin.
    + rewrite (cb_topic room event in_dev rest Hm). unfold bind, print, emit.
      match goal with |- context [add_topic _ ?x] => set (w1 := x) end.
      rewrite (proj1 (add_topic_faults (PyStr.slice_from 1 rest) w1) e
                 (Hany w1 eq_refl)).
      reflexivity.
    + reflexivity.
    + simpl. now rewrite !replies_app, !app_nil_r.
  - eapply Hfin.
    + rewrite (cb_list room event in_dev rest Hm). unfold bind at 1.
      unfold print, emit.
      match goal with |- context [bind get_topics _ ?x] => set (w1 := x) end.
      unfold bind.
      rewrite (surjective_pairing (get_topics w1)), (Hany w1 eq_refl),
        get_topics_pure.
      reflexivity.
    + reflexivity.
    + simpl. now rewrite !replies_app, !app_nil_r.
  - eapply Hfin.
    + rewrite (cb_next room event in_dev rest Hm). unfold bind, print, emit.
      match goal with |- context [next_topic ?x] => set (w1 := x) end.
      rewrite (next_topic_faults w1 e (Hany w1 eq_refl)).
      reflexivity.
    + reflexivity.
    + simpl. now rewrite !replies_app, !app_nil_r.
  - set (w1 := {| topics_json := topics_json w; net := net w;
                  trace := trace w ++ [Stdout (echo_line room event)] |}).
    destruct (send_message_spec "Meeting started." w1) as (w2 & Hs & Hf & Hr).
    apply (Hfin w2).
    + rewrite (cb_start room event in_dev rest Hm). unfold bind, print, emit.
      fold w1. rewrite Hs. apply next_topic_faults. now apply Hany.
    + exact Hf.
    + rewrite Hr. subst w1. simpl. now rewrite !replies_app, !app_nil_r.
Qed.

End StorageFaults.

(** ** What the dispatcher reads of a body *)

Section Bodies.

Context `{E : Collaborators}.

Local Open Scope py_scope.

(** Blanks around a body do not count: the callback handles a message and
    the same message with its body stripped alike, with the same outcome,
    the same file and the same replies (the line it prints quotes the body
    as it came). *)
Theorem surrounding_blanks_are_ignored (room : MatrixRoom)
    (event : RoomMessageText) (w : world) :
  same_run w (cb_print_messages room event w)
    w (cb_print_messages room
         {| sender := sender event; body := PyStr.strip (body event) |} w).
Proof.
  apply (simulates_cb E E); try reflexivity.
  simpl. now rewrite strip_idempotent.
Qed.

(** The six commands other than [#topic] read nothing after their prefix:
    in the [dev] room, two messages whose stripped bodies start with the
    same one of [#help], [#list], [#start], [#next], [#clear], [#end] are
    handled alike, whatever follows the prefix. *)
Theorem command_arguments_are_ignored (room : MatrixRoom)
    (event1 event2 : RoomMessageText) (prefix : string) (w : world) :
  display_name room = "dev" ->
  In prefix plain_commands ->
  PyStr.startswith (PyStr.strip (body event1)) prefix = true ->
  PyStr.startswith (PyStr.strip (body event2)) prefix = true ->
  same_run w (cb_print_messages room event1 w)
           w (cb_print_messages room event2 w).
Proof.
  intros Hroom Hin H1 H2.
  apply startswith_iff in H1, H2. destruct H1 as [r1 H1], H2 as [r2 H2].
  cut (simulates (cb_print_messages room event1)
                 (cb_print_messages room event2)).
  { intros Hsim. now apply Hsim. }
  pose proof (simulates_print E E) as Sp.
  pose proof (simulates_send_message E E) as Ss.
  pose proof (simulates_next_topic E E eq_refl eq_refl eq_refl) as Sn.
  pose proof (simulates_get_topics E E eq_refl) as Sg.
  pose proof (simulates_write_topics E E eq_refl) as Sw.
  unfold plain_commands in Hin. simpl in Hin.
  destruct Hin as [<-|[<-|[<-|[<-|[<-|[<-|[]]]]]]].
  - rewrite (cb_help room event1 Hroom r1 H1), (cb_help room event2 Hroom r2 H2).
    apply simulates_bind; [apply Sp | intros _; apply Ss].
  - rewrite (cb_list room event1 Hroom r1 H1), (cb_list room event2 Hroom r2 H2).
    apply simulates_bind; [apply Sp | intros _].
    apply simulates_bind; [apply Sg | intros topics].
    apply simulates_bind; [apply simulates_lift | intros items; apply Ss].
  - rewrite (cb_start room event1 Hroom r1 H1),
      (cb_start room event2 Hroom r2 H2).
    apply simulates_bind; [apply Sp | intros _].
    apply simulates_bind; [apply Ss | intros _; apply Sn].
  - rewrite (cb_next room event1 Hroom r1 H1), (cb_next room event2 Hroom r2 H2).
    apply simulates_bind; [apply Sp | intros _; apply Sn].
  - rewrite (cb_clear room event1 Hroom r1 H1),
      (cb_clear room event2 Hroom r2 H2).
    apply simulates_bind; [apply Sp | intros _].
    apply simulates_bind; [apply Sw | intros _; apply Ss].
  - rewrite (cb_end room event1 Hroom r1 H1), (cb_end room event2 Hroom r2 H2).
    apply simulates_bind; [apply Sp | intros _; apply Ss].
Qed.

End Bodies.

(** ** The reply to [#list] *)

Section Listing.

Context `{E : Collaborators}.

Local Open Scope py_scope.

(** The loop of [#list] builds one line per topic, in order, numbered from
    its first index. *)
Lemma list_text_numbered (l : list string) :
  forall (i : nat) (acc : string),
    list_text i (map JStr l) acc = acc ++ numbered_from i l.
Proof.
  induction l as [|t l IH]; intros i acc.
  - simpl. unfold numbered_from. simpl. now rewrite append_nil_r.
  - cbn [map list_text fmt]. rewrite IH.
    unfold numbered_from. cbn [List.length seq combine map fst snd].
    rewrite concat_cons, !append_assoc. reflexivity.
Qed.

(** In the [dev] room, on a store that holds the topics [l], [#list]
    answers with one body: the lines [1. <first topic>], [2. <second
    topic>], ... in the order of the queue, each ended by a newline; the
    empty string when there is no topic.  The file is left as it is. *)
Theorem list_reply_is_numbered (room : MatrixRoom) (event : RoomMessageText)
    (l : list string) (w : world) :
  display_name room = "dev" ->
  PyStr.startswith (PyStr.strip (body event)) "#list" = true ->
  holds w l ->
  exists w',
    cb_print_messages room event w = (Ok tt, w')
    /\ topics_json w' = topics_json w
    /\ replies (trace w') = (replies (trace w) ++ [numbered_from 1 l])%list.
Proof.
  intros Hroom Hm Hl. apply startswith_iff in Hm. destruct Hm as [rest Hm].
  rewrite (cb_list room event Hroom rest Hm).
  unfold bind at 1. unfold print, emit.
  set (w1 := {| topics_json := topics_json w |}).
  assert (Hl1 : holds w1 l) by now apply (holds_file w).
  unfold bind at 1. rewrite (get_topics_holds w1 l Hl1).
  unfold bind, lift. cbn [py_iter str_list].
  rewrite list_text_numbered. cbn [append].
  destruct (send_message_spec (numbered_from 1 l) w1) as (w' & Hs & Hf & Hr).
  exists w'. split; [exact Hs|]. split; [exact Hf|].
  rewrite Hr. subst w1. simpl. now rewrite replies_app, app_nil_r.
Qed.

End Listing.

(** ** The dispatcher is a queue machine *)

Section Machine.

Context `{E : Collaborators}.

Hypothesis law : dump_then_load.

Variable room : MatrixRoom.
Hypothesis in_dev : display_name room = "dev".

Local Open Scope py_scope.

Lemma step_command (event : RoomMessageText) (w : world) (l : list string) :
  holds w l ->
  runs_to (cb_print_messages room event) w
    (fst (queue_step l (parse_command (PyStr.strip (body event)))))
    (snd (queue_step l (parse_command (PyStr.strip (body event))))).
Proof.
  intros Hl. unfold parse_command.
  destruct (PyStr.startswith _ "#topic") eqn:Ht.
  { apply startswith_iff in Ht. destruct Ht as [rest Hm].
    rewrite (cb_topic room event in_dev rest Hm), Hm.
    change (PyStr.slice_from 7 ("#topic" ++ rest))
      with (PyStr.slice_from 1 rest).
    set (t := PyStr.slice_from 1 rest). cbn [queue_step fst snd].
    change [("Added topic '" ++ t ++ "'")%string]
      with ([] ++ [] ++ [] ++ [("Added topic '" ++ t ++ "'")%string])%list.
    apply (runs_to_bind _ _ w l); [now apply runs_to_print | intros w1 H1].
    apply (runs_to_bind _ _ w1 l); [now apply runs_to_print | intros w2 H2].
    apply (runs_to_bind _ _ w2 (l ++ [t]));
      [now apply runs_to_add_topic | intros w3 H3].
    now apply runs_to_send_message. }
  destruct (PyStr.startswith _ "#help") eqn:Hh.
  { apply startswith_iff in Hh. destruct Hh as [rest Hm].
    rewrite (cb_help room event in_dev rest Hm). cbn [queue_step fst snd].
    change [help_text] with ([] ++ [help_text])%list.
    apply (runs_to_bind _ _ w l); [now apply runs_to_print | intros w1 H1].
    now apply runs_to_send_message. }
  destruct (PyStr.startswith _ "#list") eqn:Hli.
  { apply startswith_iff in Hli. destruct Hli as [rest Hm].
    rewrite (cb_list room event in_dev rest Hm). cbn [queue_step fst snd].
    change [numbered_from 1 l] with ([] ++ [numbered_from 1 l])%list.
    apply (runs_to_bind _ _ w l); [now apply runs_to_print | intros w1 H1].
    replace (numbered_from 1 l) with (list_text 1 (map JStr l) "")
      by (now rewrite list_text_numbered).
    now apply runs_to_list. }
  destruct (PyStr.startswith _ "#start") eqn:Hs.
  { apply startswith_iff in Hs. destruct Hs as [rest Hm].
    rewrite (cb_start room event in_dev rest Hm).
    destruct l as [|t l]; cbn [queue_step fst snd].
    - change ["Meeting started."; "No topics"]
        with ([] ++ ["Meeting started."] ++ ["No topics"])%list.
      apply (runs_to_bind _ _ w []); [now apply runs_to_print | intros w1 H1].
      apply (runs_to_bind _ _ w1 []);
        [now apply runs_to_send_message | intros w2 H2].
      now apply runs_to_next_topic_empty.
    - change ["Meeting started."; ("Current topic is: " ++ t)%string]
        with ([] ++ ["Meeting started."]
              ++ [("Current topic is: " ++ t)%string])%list.
      apply (runs_to_bind _ _ w (t :: l));
        [now apply runs_to_print | intros w1 H1].
      apply (runs_to_bind _ _ w1 (t :: l));
        [now apply runs_to_send_message | intros w2 H2].
      now apply runs_to_next_topic_first. }
  destruct (PyStr.startswith _ "#next") eqn:Hn.
  { apply startswith_iff in Hn. destruct Hn as [rest Hm].
    rewrite (cb_next room event in_dev rest Hm).
    destruct l as [|t l]; cbn [queue_step fst snd].
    - change ["No topics"] with ([] ++ ["No topics"])%list.
      apply (runs_to_bind _ _ w []); [now apply runs_to_print | intros w1 H1].
      now apply runs_to_next_topic_empty.
    - change [("Current topic is: " ++ t)%string]
        with ([] ++ [("Current topic is: " ++ t)%string])%list.
      apply (runs_to_bind _ _ w (t :: l));
        [now apply runs_to_print | intros w1 H1].
      now apply runs_to_next_topic_first. }
  destruct (PyStr.startswith _ "#clear") eqn:Hc.
  { apply startswith_iff in Hc. destruct Hc as [rest Hm].
    rewrite (cb_clear room event in_dev rest Hm). cbn [queue_step fst snd].
    change ["Topics cleared."] with ([] ++ [] ++ ["Topics cleared."])%list.
    apply (runs_to_bind _ _ w l); [now apply runs_to_print | intros w1 H1].
    apply (runs_to_bind _ _ w1 []); [now apply runs_to_clear | intros w2 H2].
    now apply runs_to_send_message. }
  destruct (PyStr.startswith _ "#end") eqn:He.
  { apply startswith_iff in He. destruct He as [rest Hm].
    rewrite (cb_end room event in_dev rest Hm). cbn [queue_step fst snd].
    change ["Meeting stopped."] with ([] ++ ["Meeting stopped."])%list.
    apply (runs_to_bind _ _ w l); [now apply runs_to_print | intros w1 H1].
    now apply runs_to_send_message. }
  cbn [queue_step fst snd]. unfold cb_print_messages.
  rewrite (proj2 (String.eqb_eq _ _) in_dev), Ht, Hh, Hli, Hs, Hn, Hc, He.
  cbn [negb]. change (@nil string) with (@nil string ++ [])%list.
  apply (runs_to_bind _ _ w l); [|intros w1 H1; now apply runs_to_ret].
  destruct (PyStr.startswith _ "#");
    [now apply runs_to_print | now apply runs_to_ret].
Qed.

(** In the [dev] room, on a store that holds the topics [l], any sequence
    of messages is handled without an exception, and the dispatcher is the
    queue machine [queue_run]: the replies are those of the machine, in
    order, and the store holds the queue the machine ends with.  [#topic]
    appends, [#start] and [#next] take the first topic (or answer
    [No topics]), [#clear] empties, and the other messages leave the queue
    as it is.  The decoder is only asked to read back what the encoder
    wrote. *)
Theorem dispatcher_refines_queue (events : list RoomMessageText) :
  forall (w : world) (l : list string),
    holds w l ->
    runs_to (deliver room events) w
      (fst (queue_run l (map (fun e => PyStr.strip (body e)) events)))
      (snd (queue_run l (map (fun e => PyStr.strip (body e)) events))).
Proof.
  induction events as [|event events IH]; intros w l Hl.
  - simpl. now apply runs_to_ret.
  - cbn [deliver map queue_run].
    pose proof (step_command event w l Hl) as Hstep.
    destruct (queue_step l (parse_command (PyStr.strip (body event))))
      as [l1 said1].
    specialize (IH).
    destruct (queue_run l1 (map (fun e => PyStr.strip (body e)) events))
      as [l2 said2] eqn:Hrun.
    cbn [fst snd] in *.
    apply (runs_to_bind _ _ w l1 l2 said1 said2); [exact Hstep|].
    intros w1 H1. specialize (IH w1 l1 H1). rewrite Hrun in IH. exact IH.
Qed.

End Machine.

(** * Logging in *)

Section SessionFacts.

Context `{Collaborators} `{!SessionLibrary}.

Lemma py_getitem_raises (v : json) (key : string) (e : exn) :
  py_getitem v key = Raise e -> e = KeyError \/ e = TypeError.
Proof.
  destruct v; simpl; try (intros [= <-]; now right).
  destruct (find _ members); [discriminate | intros [= <-]; now left].
Qed.

Lemma getitem_error_is_not_handled (v : json) (key : string) (e : exn) :
  py_getitem v key = Raise e ->
  except_IOError e = false /\ except_JSONDecodeError e = false.
Proof.
  intros He. destruct (py_getitem_raises v key e He) as [-> | ->]; now split.
Qed.

(** The attempt to restore a session never writes the file. *)
Lemma restore_keeps_file (text : string) (c : client) :
  session_file (snd (restore text c)) = session_file c.
Proof.
  unfold restore.
  destruct (json_load text) as [config|]; [|reflexivity].
  destruct (py_getitem config "access_token"); [|reflexivity].
  destruct (py_getitem config "user_id"); [|reflexivity].
  destruct (py_getitem config "device_id"); [|reflexivity].
  simpl. now destruct (load_store _ _ _ _) as [[[]|e] n].
Qed.

Lemma restore_if_stored_keeps_file (c : client) :
  session_file (snd (restore_if_stored c)) = session_file c.
Proof.
  unfold restore_if_stored.
  destruct (session_file c) as [text|] eqn:Hf; [|simpl; exact Hf].
  pose proof (restore_keeps_file text c) as Hk.
  destruct (restore text c) as [[[]|e] c']; simpl in *; [congruence|].
  destruct (except_IOError e); [simpl; congruence|].
  destruct (except_JSONDecodeError e); simpl; congruence.
Qed.

(** What [restore] does when the three keys can be read. *)
Lemma restore_reads_three (c : client) (text : string)
    (config token user device : json) :
  json_load text = Some config ->
  py_getitem config "access_token" = Ok token ->
  py_getitem config "user_id" = Ok user ->
  py_getitem config "device_id" = Ok device ->
  restore text c =
    match load_store token user device (server c) with
    | (Raise e, n) =>
        (Raise e,
         {| session_file := session_file c; access_token := token;
            user_id := user; device_id := device; server := n;
            stdout := stdout c |})
    | (Ok _, n) =>
        (Ok tt,
         {| session_file := session_file c; access_token := token;
            user_id := user; device_id := device; server := n;
            stdout := stdout c
                      ++ ["Logged in using stored credentials: "
                          ++ fmt user ++ " on " ++ fmt device] |})
    end.
Proof.
  intros Hc Ht Hu Hd. unfold restore. rewrite Hc, Ht, Hu, Hd. simpl.
  now destruct (load_store token user device (server c)) as [[[]|e] n].
Qed.

(** With the three attributes set, [login] stops after the first part. *)
Lemma login_without_password (c c1 : client) :
  restore_if_stored c = (Ok tt, c1) ->
  truthy (access_token c1) = true -> truthy (user_id c1) = true ->
  truthy (device_id c1) = true ->
  login c = (Returns, c1).
Proof.
  intros Hr Tt Tu Td. unfold login. now rewrite Hr, Tt, Tu, Td.
Qed.

(** With an attribute missing and a [LoginResponse], [login] saves it. *)
Lemma login_with_password (c c1 : client) (user device token : string)
    (n : Net) :
  restore_if_stored c = (Ok tt, c1) ->
  truthy (user_id c1) && truthy (access_token c1) && truthy (device_id c1)
    = false ->
  super_login ALICE_PASSWORD (server c1)
    = (Ok (LoginResponse user device token), n) ->
  login c =
    (Returns,
     write_details_to_disk user device token
       (say "Logged in using a password; saving details to disk"
          (set_server n c1))).
Proof.
  intros Hr Hfalse Hlogin. unfold login. rewrite Hr.
  replace (negb (truthy (user_id c1)) || negb (truthy (access_token c1))
           || negb (truthy (device_id c1))) with true.
  - now rewrite Hlogin.
  - destruct (truthy (user_id c1)), (truthy (access_token c1)),
      (truthy (device_id c1)); simpl in *; congruence.
Qed.

(** What the first part of [login] does on a file that cannot be read. *)
Lemma restore_if_stored_unreadable (c : client) :
  (session_file c = None
   \/ exists text, session_file c = Some text /\ json_load text = None) ->
  restore_if_stored c =
    (Ok tt,
     match session_file c with
     | None => c
     | Some _ => say "Couldn't read JSON file; overwriting" c
     end).
Proof.
  intros [Hf | (text & Hf & Hbad)]; unfold restore_if_stored, restore;
    rewrite Hf; [reflexivity|]. now rewrite Hbad.
Qed.

(** A stored session is restored.  When [credentials.json] decodes to a
    dict that has the three keys with values that count as true, and the
    store loads, [login] returns with the three attributes set from the
    file and one line printed; the file is left as it is and no password
    login is made. *)
Theorem stored_session_is_restored (c : client) (text : string)
    (config token user device : json) (n : Net) :
  session_file c = Some text ->
  json_load text = Some config ->
  py_getitem config "access_token" = Ok token ->
  py_getitem config "user_id" = Ok user ->
  py_getitem config "device_id" = Ok device ->
  truthy token = true -> truthy user = true -> truthy device = true ->
  load_store token user device (server c) = (Ok tt, n) ->
  login c =
    (Returns,
     {| session_file := Some text; access_token := token; user_id := user;
        device_id := device; server := n;
        stdout := stdout c
                  ++ ["Logged in using stored credentials: "
                      ++ fmt user ++ " on " ++ fmt device] |}).
Proof.
  intros Hf Hc Ht Hu Hd Tt Tu Td Hs.
  apply login_without_password; try assumption.
  unfold restore_if_stored. rewrite Hf.
  rewrite (restore_reads_three c text config token user device Hc Ht Hu Hd).
  now rewrite Hs, Hf.
Qed.

(** A session that cannot be read is replaced.  When [credentials.json]
    is missing, or holds a text that does not decode, and one of the three
    attributes counts as false (as on a client just built), [login] logs
    in with the password; when the server answers with a [LoginResponse],
    [login] returns and the file holds the encoding of the three fields of
    the response, under the keys [access_token], [device_id], [user_id] in
    this order. *)
Theorem unreadable_session_is_replaced (c : client)
    (user device token : string) (n : Net) :
  (session_file c = None
   \/ exists text, session_file c = Some text /\ json_load text = None) ->
  truthy (user_id c) && truthy (access_token c) && truthy (device_id c)
    = false ->
  super_login ALICE_PASSWORD (server c) = (Ok (LoginResponse user device token), n) ->
  fst (login c) = Returns
  /\ session_file (snd (login c)) = Some (json_dump (details user device token))
  /\ stdout (snd (login c)) =
       (stdout c
        ++ match session_file c with
           | None => []
           | Some _ => ["Couldn't read JSON file; overwriting"]
           end
        ++ ["Logged in using a password; saving details to disk"])%list.
Proof.
  intros Hfile Hfalse Hlogin.
  pose proof (restore_if_stored_unreadable c Hfile) as Hr.
  destruct (session_file c) as [text|];
    rewrite (login_with_password c _ user device token n Hr Hfalse Hlogin);
    simpl; repeat split. now rewrite <- app_assoc.
Qed.

(** A stored dict that lacks a key stops [login].  When the file decodes
    but one of [access_token], [user_id], [device_id] cannot be read from
    the decoded value (a key is missing: [KeyError]; the value is not a
    dict: [TypeError]), the exception leaves [login]: neither handler
    catches it, no password login is made, nothing is printed and the file
    is left as it is. *)
Theorem incomplete_session_raises (c : client) (text : string)
    (config : json) (key : string) (e0 : exn) :
  session_file c = Some text ->
  json_load text = Some config ->
  In key ["access_token"; "user_id"; "device_id"] ->
  py_getitem config key = Raise e0 ->
  exists e,
    fst (login c) = Raises e
    /\ (e = KeyError \/ e = TypeError)
    /\ session_file (snd (login c)) = session_file c
    /\ server (snd (login c)) = server c
    /\ stdout (snd (login c)) = stdout c.
Proof.
  intros Hf Hc Hin Hkey.
  unfold login, restore_if_stored, restore. rewrite Hf, Hc.
  destruct (py_getitem config "access_token") as [token|e1] eqn:H1.
  2:{ destruct (getitem_error_is_not_handled _ _ _ H1) as [-> ->].
      exists e1. simpl. rewrite Hf.
      repeat split; try reflexivity. exact (py_getitem_raises _ _ _ H1). }
  destruct (py_getitem config "user_id") as [user|e2] eqn:H2.
  2:{ destruct (getitem_error_is_not_handled _ _ _ H2) as [-> ->].
      exists e2. simpl. rewrite Hf.
      repeat split; try reflexivity. exact (py_getitem_raises _ _ _ H2). }
  destruct (py_getitem config "device_id") as [device|e3] eqn:H3.
  2:{ destruct (getitem_error_is_not_handled _ _ _ H3) as [-> ->].
      exists e3. simpl. rewrite Hf.
      repeat split; try reflexivity. exact (py_getitem_raises _ _ _ H3). }
  simpl in Hin. destruct Hin as [<-|[<-|[<-|[]]]]; congruence.
Qed.

(** When [login] does not return, the file is as it was.  An exception
    that leaves [login] and the exit after a refused password login both
    leave [credentials.json] as it was; the exit status is 1, and the last
    line printed then starts with [Failed to log in: ]. *)
Theorem failed_login_keeps_the_file (c : client) :
  (forall e, fst (login c) = Raises e ->
     session_file (snd (login c)) = session_file c)
  /\ (forall status, fst (login c) = Exits status ->
        status = 1
        /\ session_file (snd (login c)) = session_file c
        /\ exists before shown,
             stdout (snd (login c)) =
               (before ++ [("Failed to log in: " ++ shown)%string])%list).
Proof.
  pose proof (restore_if_stored_keeps_file c) as Hk.
  unfold login.
  destruct (restore_if_stored c) as [[[]|e] c1]; simpl in Hk.
  - destruct (negb (truthy (user_id c1)) || negb (truthy (access_token c1))
              || negb (truthy (device_id c1))).
    + destruct (super_login ALICE_PASSWORD (server c1))
        as [[[user device token|shown]|e] n]; simpl.
      * split; [discriminate|discriminate].
      * split; [discriminate|]. intros status [= <-].
        repeat split; [exact Hk|]. now exists (stdout c1), shown.
      * split; [intros _ _; exact Hk | discriminate].
    + simpl. split; discriminate.
  - simpl. split; [intros _ _; exact Hk | discriminate].
Qed.

(** An [OSError] of [load_store] leaves a session half restored.  When
    the file decodes to a dict with the three keys and values that count
    as true, and [load_store] raises an exception that derives from
    [OSError], the first handler prints its line and [login] returns: the
    three attributes are already set from the file, so no password login
    follows the line that announces one, and the file is left as it
    is. *)
Theorem load_store_error_skips_the_login (c : client) (text : string)
    (config token user device : json) (e : exn) (n : Net) :
  session_file c = Some text ->
  json_load text = Some config ->
  py_getitem config "access_token" = Ok token ->
  py_getitem config "user_id" = Ok user ->
  py_getitem config "device_id" = Ok device ->
  truthy token = true -> truthy user = true -> truthy device = true ->
  load_store token user device (server c) = (Raise e, n) ->
  except_IOError e = true ->
  login c =
    (Returns,
     {| session_file := Some text; access_token := token; user_id := user;
        device_id := device; server := n;
        stdout := stdout c
                  ++ ["Couldn't load session from file. Logging in. Error: "
                      ++ str_exn e] |}).
Proof.
  intros Hf Hc Ht Hu Hd Tt Tu Td Hs He.
  apply login_without_password; try assumption.
  unfold restore_if_stored. rewrite Hf.
  rewrite (restore_reads_three c text config token user device Hc Ht Hu Hd).
  rewrite Hs, He. unfold say. simpl. now rewrite Hf.
Qed.

(** What a password login saves, a later [login] restores.  When a
    password login has been answered by a [LoginResponse] whose three
    fields are not empty, a client that starts on the file this [login]
    wrote gets its three attributes from it (the access token, the user
    identifier and the device of the response) and makes no password
    login, provided the decoder reads back the saved dict and the store
    loads. *)
Theorem saved_session_round_trip (c c2 : client)
    (user device token : string) (n n2 : Net) :
  (session_file c = None
   \/ exists text, session_file c = Some text /\ json_load text = None) ->
  truthy (user_id c) && truthy (access_token c) && truthy (device_id c)
    = false ->
  super_login ALICE_PASSWORD (server c) = (Ok (LoginResponse user device token), n) ->
  user <> "" -> device <> "" -> token <> "" ->
  json_load (json_dump (details user device token))
    = Some (details user device token) ->
  session_file c2 = session_file (snd (login c)) ->
  load_store (JStr token) (JStr user) (JStr device) (server c2) = (Ok tt, n2) ->
  login c2 =
    (Returns,
     {| session_file := session_file c2;
        access_token := JStr token; user_id := JStr user;
        device_id := JStr device; server := n2;
        stdout := stdout c2
                  ++ ["Logged in using stored credentials: "
                      ++ user ++ " on " ++ device] |}).
Proof.
  intros Hfile Hfalse Hlogin Hu Hd Ht Hback Hf2 Hstore.
  pose proof (restore_if_stored_unreadable c Hfile) as Hr.
  assert (Hsaved : session_file (snd (login c))
                   = Some (json_dump (details user device token))).
  { destruct (session_file c) as [text|];
      now rewrite (login_with_password c _ user device token n Hr Hfalse
                     Hlogin). }
  rewrite Hsaved in Hf2.
  assert (Tne : forall s, s <> "" -> truthy (JStr s) = true).
  { intros s Hs. simpl. destruct (String.eqb_spec s ""); [contradiction|].
    reflexivity. }
  apply login_without_password; simpl; try (now apply Tne).
  unfold restore_if_stored. rewrite Hf2.
  rewrite (restore_reads_three c2 _ (details user device token)
             (JStr token) (JStr user) (JStr device) Hback eq_refl eq_refl
             eq_refl).
  now rewrite Hstore, Hf2.
Qed.

End SessionFacts.

(** * The sync loop *)

Section SyncFacts.

Context `{Collaborators}.

Variable sync_forever : M unit.

Lemma sync_once_cases (w : world) :
  (exists w', sync_forever w = (Ok tt, w')
     /\ sync_once sync_forever w = (Ok true, w'))
  \/ (exists e w', sync_forever w = (Raise e, w')
     /\ sync_once sync_forever w =
          (Ok false, snd (print ("Exception:" ++ format_exc e) w'))).
Proof.
  unfold sync_once, try_except, bind.
  destruct (sync_forever w) as [[[]|e] w'].
  - left. now exists w'.
  - right. now exists e, w'.
Qed.

(** [do_sync] gives up on nothing and adds nothing.  No exception of
    [sync_forever] leaves it; when it returns, it is in the very world in
    which a call of [sync_forever] returned; more turns do not change a
    result once reached; and as long as [sync_forever] raises, it goes on
    calling it, whatever the number of failures. *)
Theorem do_sync_retries_until_sync_returns (fuel : nat) :
  forall w : world,
    (forall e w', do_sync sync_forever fuel w <> Some (Raise e, w'))
    /\ (forall w', do_sync sync_forever fuel w = Some (Ok tt, w') ->
          exists w0, sync_forever w0 = (Ok tt, w'))
    /\ (forall more r, do_sync sync_forever fuel w = Some r ->
          do_sync sync_forever (fuel + more) w = Some r)
    /\ ((forall w0, exists e w1, sync_forever w0 = (Raise e, w1)) ->
        do_sync sync_forever fuel w = None).
Proof.
  induction fuel as [|fuel IH]; intros w.
  - simpl. repeat split; try discriminate.
  - simpl.
    destruct (sync_once_cases w) as [(w' & Hs & ->)|(e & w' & Hs & ->)].
    + repeat split.
      * discriminate.
      * intros w'' [= <-]. now exists w.
      * intros more r Hr. exact Hr.
      * intros Hall. destruct (Hall w) as (e & w1 & He). congruence.
    + destruct (IH (snd (print ("Exception:" ++ format_exc e) w')))
        as (I1 & I2 & I3 & I4).
      repeat split; assumption.
Qed.

End SyncFacts.

(** * The further statements on the reference libraries *)

Section MoreInstances.

Local Open Scope py_scope.

(** A remark that quotes a command, on a file that does not decode. *)
Lemma plain_text_is_ignored_witness :
  cb_print_messages dev_room (message " see #clear above ") broken_file
    = (Ok tt, broken_file).
Proof.
  apply (@plain_text_is_ignored delivering). reflexivity.
Defined.

(** [#clear] and an unknown command raise nothing. *)
Lemma only_store_commands_raise_witness :
  always_returns (@cb_print_messages delivering dev_room (message "#clear"))
  /\ always_returns (@cb_print_messages delivering dev_room (message "#vote")).
Proof.
  split; apply (@only_store_commands_raise delivering); reflexivity.
Defined.

(** [#list] writes nothing, also where it raises. *)
Lemma only_queue_commands_write_witness :
  topics_json (snd (cb_print_messages dev_room (message "#list") broken_file))
    = Some "[1, 2".
Proof.
  apply (@only_queue_commands_write delivering dev_room (message "#list"));
    reflexivity.
Defined.

(** [#help] on a file that does not decode. *)
Lemma help_and_end_are_fixed_witness :
  exists w',
    cb_print_messages dev_room (message "#help me") broken_file = (Ok tt, w')
    /\ topics_json w' = Some "[1, 2"
    /\ replies (trace w') = [help_text].
Proof.
  apply (proj1 (@help_and_end_are_fixed delivering dev_room eq_refl
                  (message "#help me") broken_file)).
  reflexivity.
Defined.

(** [#clear] on a file that does not decode. *)
Lemma clear_resets_any_file_witness :
  exists w',
    cb_print_messages dev_room (message "#clear") broken_file = (Ok tt, w')
    /\ topics_json w' = Some "[]"
    /\ replies (trace w') = ["Topics cleared."].
Proof.
  apply (@clear_resets_any_file delivering dev_room eq_refl
           (message "#clear") broken_file).
  reflexivity.
Defined.

(** [#start] on a file that does not decode. *)
Lemma unreadable_file_stops_the_command_witness :
  fst (cb_print_messages dev_room (message "#start") broken_file)
    = Raise JSONDecodeError
  /\ topics_json (snd (cb_print_messages dev_room (message "#start")
                         broken_file)) = Some "[1, 2"
  /\ replies (trace (snd (cb_print_messages dev_room (message "#start")
                            broken_file))) = ["Meeting started."].
Proof.
  apply (proj2 (proj2 (proj2
    (@unreadable_file_stops_the_command delivering dev_room eq_refl
       (message "#start") broken_file JSONDecodeError eq_refl)))).
  reflexivity.
Defined.

(** [#next] with and without words after it. *)
Lemma command_arguments_are_ignored_witness :
  same_run two_topics
    (cb_print_messages dev_room (message "#next please") two_topics)
    two_topics
    (cb_print_messages dev_room (message "#next") two_topics).
Proof.
  apply (@command_arguments_are_ignored delivering dev_room
           (message "#next please") (message "#next") "#next" two_topics).
  - reflexivity.
  - simpl. tauto.
  - reflexivity.
  - reflexivity.
Defined.

(** Two topics listed. *)
Lemma list_reply_is_numbered_witness :
  exists w',
    cb_print_messages dev_room (message "#list") two_topics = (Ok tt, w')
    /\ topics_json w' = topics_json two_topics
    /\ replies (trace w') = ["1. budget" ++ nl ++ "2. hiring" ++ nl].
Proof.
  apply (@list_reply_is_numbered delivering dev_room (message "#list")
           ["budget"; "hiring"] two_topics); reflexivity.
Defined.

(** A meeting from a store of two topics, with a remark and an unknown
    command in between. *)
Lemma dispatcher_refines_queue_witness :
  runs_to
    (deliver dev_room
       (map message
          ["#start"; "thanks"; "#topic  lunch "; "#next"; "#vote"; "#list";
           "#next"; "#next"; "#end"]))
    two_topics []
    ["Meeting started."; "Current topic is: budget";
     "Added topic ' lunch'"; "Current topic is: hiring";
     "1.  lunch" ++ nl; "Current topic is:  lunch"; "No topics";
     "Meeting stopped."].
Proof.
  apply (@dispatcher_refines_queue delivering
           (RefJsonFacts.library_law _) dev_room eq_refl
           (map message
              ["#start"; "thanks"; "#topic  lunch "; "#next"; "#vote";
               "#list"; "#next"; "#next"; "#end"])
           two_topics ["budget"; "hiring"]).
  reflexivity.
Defined.

(** A client that starts on a saved session. *)
Lemma stored_session_is_restored_witness :
  @login delivering rejecting (new_client (Some saved_details)) =
    (Returns,
     @Build_client delivering (Some saved_details) (JStr "token")
       (JStr "@alice:dark.fi") (JStr "DEVICE") tt
       ["Logged in using stored credentials: @alice:dark.fi on DEVICE"]).
Proof.
  apply (@stored_session_is_restored delivering rejecting
           (new_client (Some saved_details)) saved_details
           (details "@alice:dark.fi" "DEVICE" "token")); reflexivity.
Defined.

(** A client that starts on a file cut short. *)
Lemma unreadable_session_is_replaced_witness :
  fst (@login delivering accepting (new_client (Some "{")))
    = Returns
  /\ session_file (snd (@login delivering accepting (new_client (Some "{"))))
     = Some saved_details
  /\ stdout (snd (@login delivering accepting (new_client (Some "{")))) =
       ["Couldn't read JSON file; overwriting";
        "Logged in using a password; saving details to disk"].
Proof.
  apply (@unreadable_session_is_replaced delivering accepting
           (new_client (Some "{")) "@alice:dark.fi" "DEVICE" "token" tt).
  - right. exists "{". split; reflexivity.
  - reflexivity.
  - reflexivity.
Defined.

(** A client that starts on a file with the access token alone. *)
Lemma incomplete_session_raises_witness :
  exists e,
    fst (@login delivering accepting (new_client (Some token_only)))
      = Raises e
    /\ (e = KeyError \/ e = TypeError)
    /\ session_file (snd (@login delivering accepting
                            (new_client (Some token_only))))
       = Some token_only
    /\ server (snd (@login delivering accepting
                      (new_client (Some token_only)))) = tt
    /\ stdout (snd (@login delivering accepting
                      (new_client (Some token_only)))) = [].
Proof.
  apply (@incomplete_session_raises delivering accepting
           (new_client (Some token_only)) token_only
           (JObj [("access_token", JStr "token")]) "user_id" KeyError).
  - reflexivity.
  - reflexivity.
  - simpl. tauto.
  - reflexivity.
Defined.

(** A password login the server refuses. *)
Lemma failed_login_keeps_the_file_witness :
  session_file (snd (@login delivering rejecting (new_client None))) = None
  /\ exists before shown,
       stdout (snd (@login delivering rejecting (new_client None))) =
         (before ++ [("Failed to log in: " ++ shown)%string])%list.
Proof.
  destruct (proj2 (@failed_login_keeps_the_file delivering rejecting
                     (new_client None)) 1 eq_refl) as (_ & Hfile & Hout).
  split; [exact Hfile | exact Hout].
Defined.

(** A saved session whose store cannot be loaded. *)
Lemma load_store_error_skips_the_login_witness :
  @login delivering store_missing (new_client (Some saved_details)) =
    (Returns,
     @Build_client delivering (Some saved_details) (JStr "token")
       (JStr "@alice:dark.fi") (JStr "DEVICE") tt
       [("Couldn't load session from file. Logging in. Error: "
         ++ "[Errno 2] No such file or directory")%string]).
Proof.
  apply (@load_store_error_skips_the_login delivering store_missing
           (new_client (Some saved_details)) saved_details
           (details "@alice:dark.fi" "DEVICE" "token")
           (JStr "token") (JStr "@alice:dark.fi") (JStr "DEVICE")
           FileNotFoundError tt); reflexivity.
Defined.

(** A first start without a file, then a second start. *)
Lemma saved_session_round_trip_witness :
  @login delivering accepting
    (new_client
       (session_file (snd (@login delivering accepting (new_client None)))))
  = (Returns,
     @Build_client delivering
       (session_file (snd (@login delivering accepting (new_client None))))
       (JStr "token") (JStr "@alice:dark.fi") (JStr "DEVICE") tt
       ["Logged in using stored credentials: @alice:dark.fi on DEVICE"]).
Proof.
  apply (@saved_session_round_trip delivering accepting (new_client None)
           (new_client
              (session_file
                 (snd (@login delivering accepting (new_client None)))))
           "@alice:dark.fi" "DEVICE" "token" tt tt);
    try reflexivity; try discriminate.
  now left.
Defined.

(** Two failures, then a return: reached in three turns, the same in
    five. *)
Lemma do_sync_retries_until_sync_returns_witness :
  do_sync flaky_sync 5 no_file =
    Some (Ok tt,
          @Build_world delivering None tt
            [Stdout "Exception:Traceback (most recent call last):";
             Stdout "Exception:Traceback (most recent call last):"]).
Proof.
  apply (proj1 (proj2 (proj2
           (@do_sync_retries_until_sync_returns delivering flaky_sync 3
              no_file))) 2).
  reflexivity.
Defined.

End MoreInstances.
